(** * Parent-student linking endpoints of [server.ts]

    A shallow embedding of the four linking handlers of the Express server
    ([GET /api/student/linking-code], [POST /api/parent/link-request],
    [GET /api/student/link-requests], [PATCH /api/student/link-requests/:id])
    over the three SQLite tables they touch, followed by the properties of
    the linking workflow.

    Conventions of the embedding.
    - A table is the list of its rows in rowid (insertion) order; the
      statement method [.get] returns the first matching row, [.all] all of
      them in that order.
    - A nullable TEXT cell is an [option string]: a request field that is
      absent or [null] is bound as SQL NULL, and [=] on NULL never holds.
    - [expiresAt] and [createdAt] hold the instant in milliseconds since the
      epoch.  The source stores its [toISOString()] rendering, a fixed-width
      text on which SQLite's text comparison is the chronological one.
    - [Math.random()] and the clock are inputs of a handler call ([env]).
    - Whether SQLite enforces the FOREIGN KEY clauses is a connection
      setting the source leaves at the driver's default; it is the
      parameter [fk] of the handlers that insert. *)

From Stdlib Require Import List String Ascii ZArith QArith Qround Bool Lia.
Import ListNotations.
Local Open Scope string_scope.
Local Open Scope list_scope.
Local Open Scope Z_scope.

(** ** Tables *)

Definition text := option string.

(** The columns of [users] that the linking queries read. *)
Record user := mkUser
  { u_id : string; u_fullName : text; u_email : text }.

Record linking_code := mkCode
  { c_id : string; c_studentId : text; c_code : string;
    c_expiresAt : Z; c_used : Z }.

Record link := mkLink
  { l_id : string; l_parentId : text; l_studentId : text;
    l_status : text; l_createdAt : Z }.

Record DB := mkDB
  { users : list user;
    linking_codes : list linking_code;
    parent_student_links : list link }.

Definition empty_db : DB := mkDB [] [] [].

(** SQL [a = b] on nullable TEXT, as a WHERE clause sees it. *)
Definition sql_eq (a b : text) : bool :=
  match a, b with
  | Some x, Some y => String.eqb x y
  | _, _ => false
  end.

(** ** Constraints checked by INSERT *)

(** A FOREIGN KEY column accepts NULL or the id of a [users] row. *)
Definition references_user (us : list user) (v : text) : bool :=
  match v with
  | None => true
  | Some x => existsb (fun u => String.eqb (u_id u) x) us
  end.

(** [INSERT INTO linking_codes]: [id] PRIMARY KEY, [code] UNIQUE,
    [studentId] REFERENCES users(id). *)
Definition code_insertable (fk : bool) (db : DB) (r : linking_code) : bool :=
  negb (existsb (fun r' => String.eqb (c_id r') (c_id r)) (linking_codes db))
  && negb (existsb (fun r' => String.eqb (c_code r') (c_code r)) (linking_codes db))
  && (negb fk || references_user (users db) (c_studentId r)).

(** [INSERT INTO parent_student_links]: [id] PRIMARY KEY,
    UNIQUE(parentId, studentId) (a NULL cell never conflicts), both
    columns REFERENCES users(id). *)
Definition same_pair (a b : link) : bool :=
  sql_eq (l_parentId a) (l_parentId b) && sql_eq (l_studentId a) (l_studentId b).

Definition link_insertable (fk : bool) (db : DB) (r : link) : bool :=
  negb (existsb (fun r' => String.eqb (l_id r') (l_id r)) (parent_student_links db))
  && negb (existsb (fun r' => same_pair r' r) (parent_student_links db))
  && (negb fk || (references_user (users db) (l_parentId r)
                  && references_user (users db) (l_studentId r))).

Definition insert_code (db : DB) (r : linking_code) : DB :=
  mkDB (users db) (linking_codes db ++ [r]) (parent_student_links db).

Definition insert_link (db : DB) (r : link) : DB :=
  mkDB (users db) (linking_codes db) (parent_student_links db ++ [r]).

(** ** Inputs and outcomes of a handler call *)

(** The successive values of [Math.random()], each in [[0,1)]. *)
Definition rng := nat -> Q.

(** What one call reads from outside the database: the clock at its first
    and at its second reading, the random draws, and the row id
    [Math.random().toString(36).substr(2, 9)] it would use. *)
Record env := mkEnv
  { now : Z; now2 : Z; random : rng; rowid : string }.

Inductive body :=
| CodeBody (code : string) (expiresAt : Z)  (* {success:true, code, expiresAt} *)
| MessageBody (success : bool) (message : string)
| SuccessBody                               (* {success:true} *)
| PendingRows (rows : list (link * text * text)).

Inductive exn :=
| SqliteConstraint   (* SqliteError thrown by a refused INSERT *)
| TypeError.         (* property read on undefined *)

Inductive outcome :=
| Respond (status : nat) (b : body)
| Throw (e : exn).   (* leaves the handler uncaught *)

Definition msg_invalid_code : string := "الكود غير صالح أو منتهي الصلاحية".
Definition msg_link_sent : string := "تم إرسال طلب الربط بنجاح".
Definition msg_link_exists : string := "طلب الربط موجود بالفعل".

(** ** generateLinkingCode *)

Definition chars : string := "ABCDEFGHJKLMNPQRSTUVWXYZ23456789".

(** [s.charAt(i)]: the empty string out of range. *)
Definition charAt (s : string) (i : Z) : string :=
  if i <? 0 then ""
  else match String.get (Z.to_nat i) s with
       | Some a => String a EmptyString
       | None => ""
       end.

(** [Math.floor(r * chars.length)] for the draw [r]. *)
Definition pick (r : Q) : Z :=
  Qfloor (r * inject_Z (Z.of_nat (String.length chars))).

Fixpoint code_loop (n : nat) (g : rng) (i : nat) (code : string) : string :=
  match n with
  | O => code
  | S n' => code_loop n' g (S i) (code ++ charAt chars (pick (g i)))%string
  end.

Definition generateLinkingCode (g : rng) : string :=
  code_loop 6 g 0 "STU-".

(** ** The handlers *)

(** [used = 0 AND expiresAt > ?], the validity test shared by the two
    SELECTs on [linking_codes]. *)
Definition unexpired (t : Z) (r : linking_code) : bool :=
  (c_used r =? 0) && (t <? c_expiresAt r).

(** [SELECT * FROM linking_codes WHERE studentId = ? AND used = 0 AND
    expiresAt > ?], first row. *)
Definition existing_code (db : DB) (studentId : text) (t : Z) : option linking_code :=
  find (fun r => sql_eq (c_studentId r) studentId && unexpired t r)
       (linking_codes db).

(** [SELECT * FROM linking_codes WHERE code = ? AND used = 0 AND
    expiresAt > ?], first row. *)
Definition valid_code (db : DB) (code : text) (t : Z) : option linking_code :=
  find (fun r => sql_eq (Some (c_code r)) code && unexpired t r)
       (linking_codes db).

Definition day_ms : Z := 24 * 60 * 60 * 1000.

(** GET /api/student/linking-code *)
Definition requestCode (fk : bool) (db : DB) (e : env) (studentId : text)
  : DB * outcome :=
  match existing_code db studentId (now e) with
  | Some existing =>
      (db, Respond 200 (CodeBody (c_code existing) (c_expiresAt existing)))
  | None =>
      let newCode := generateLinkingCode (random e) in
      let expiresAt := now2 e + day_ms in
      let row := mkCode (rowid e) studentId newCode expiresAt 0 in
      if code_insertable fk db row
      then (insert_code db row, Respond 200 (CodeBody newCode expiresAt))
      else (db, Throw SqliteConstraint)
  end.

(** POST /api/parent/link-request *)
Definition redeemCode (fk : bool) (db : DB) (e : env) (parentId code : text)
  : DB * outcome :=
  match valid_code db code (now e) with
  | None => (db, Respond 400 (MessageBody false msg_invalid_code))
  | Some codeData =>
      let studentId := c_studentId codeData in
      let row := mkLink (rowid e) parentId studentId (Some "pending") (now2 e) in
      if link_insertable fk db row
      then (insert_link db row, Respond 200 (MessageBody true msg_link_sent))
      else (db, Respond 400 (MessageBody false msg_link_exists))
  end.

(** GET /api/student/link-requests: the inner join of the student's pending
    rows with [users] on [l.parentId = u.id]. *)
Definition pending_rows (db : DB) (studentId : text) : list (link * text * text) :=
  flat_map
    (fun l =>
       if sql_eq (l_studentId l) studentId && sql_eq (l_status l) (Some "pending")
       then map (fun u => (l, u_fullName u, u_email u))
                (filter (fun u => sql_eq (l_parentId l) (Some (u_id u))) (users db))
       else [])
    (parent_student_links db).

Definition listPending (db : DB) (studentId : text) : DB * outcome :=
  (db, Respond 200 (PendingRows (pending_rows db studentId))).

(** [UPDATE parent_student_links SET status = ? WHERE id = ?] *)
Definition set_status (status : text) (l : link) : link :=
  mkLink (l_id l) (l_parentId l) (l_studentId l) status (l_createdAt l).

Definition update_status (db : DB) (id : string) (status : text) : DB :=
  mkDB (users db) (linking_codes db)
       (map (fun l => if String.eqb (l_id l) id then set_status status l else l)
            (parent_student_links db)).

(** [UPDATE linking_codes SET used = 1 WHERE studentId = ?] *)
Definition set_used (r : linking_code) : linking_code :=
  mkCode (c_id r) (c_studentId r) (c_code r) (c_expiresAt r) 1.

Definition invalidate_codes (db : DB) (studentId : text) : DB :=
  mkDB (users db)
       (map (fun r => if sql_eq (c_studentId r) studentId then set_used r else r)
            (linking_codes db))
       (parent_student_links db).

(** [status === 'approved'] *)
Definition is_approved (status : text) : bool :=
  match status with
  | Some s => String.eqb s "approved"
  | None => false
  end.

(** PATCH /api/student/link-requests/:id *)
Definition decide (db : DB) (id : string) (status : text) : DB * outcome :=
  let db1 := update_status db id status in
  if is_approved status then
    match find (fun l => String.eqb (l_id l) id) (parent_student_links db1) with
    | Some link => (invalidate_codes db1 (l_studentId link), Respond 200 SuccessBody)
    | None => (db1, Throw TypeError)   (* link.studentId on undefined *)
    end
  else (db1, Respond 200 SuccessBody).

(** ** Requests and runs *)

(** The requests that write the three tables.  Every other endpoint of the
    server leaves [linking_codes] and [parent_student_links] alone; all that
    is assumed of them is that they write [users] ([UsersWrite]). *)
Inductive request :=
| RequestCode (studentId : text)
| RedeemCode (parentId code : text)
| ListPending (studentId : text)
| Decide (id : string) (status : text)
| UsersWrite (us : list user).

Definition handle (fk : bool) (db : DB) (e : env) (r : request) : DB * outcome :=
  match r with
  | RequestCode s => requestCode fk db e s
  | RedeemCode p c => redeemCode fk db e p c
  | ListPending s => listPending db s
  | Decide id st => decide db id st
  | UsersWrite us =>
      (mkDB us (linking_codes db) (parent_student_links db), Respond 200 SuccessBody)
  end.

Definition trace := list (env * request).

(** The database after serving the requests of a trace in order. *)
Fixpoint exec (fk : bool) (db : DB) (tr : trace) : DB :=
  match tr with
  | [] => db
  | (e, r) :: tr' => exec fk (fst (handle fk db e r)) tr'
  end.

(** The clock never goes back along the trace: every reading is at least
    the previous one, starting from [t]. *)
Fixpoint clock_ok (t : Z) (tr : trace) : Prop :=
  match tr with
  | [] => True
  | (e, _) :: tr' => t <= now e /\ now e <= now2 e /\ clock_ok (now2 e) tr'
  end.

Fixpoint clock_end (t : Z) (tr : trace) : Z :=
  match tr with
  | [] => t
  | (e, _) :: tr' => clock_end (now2 e) tr'
  end.

(** ** GET /api/parent/students *)

(** A row of [SELECT u.id, u.fullName, u.avatar, u.educationPath, l.status]. *)
Record student_row := mkStudentRow
  { s_id : string; s_fullName : text; s_avatar : text;
    s_educationPath : text; s_status : text }.

(** The join of the parent's approved rows with [users] on
    [l.studentId = u.id].  [avatar] and [educationPath] read the two
    further columns of a [users] row that this query selects. *)
Definition select_students (avatar educationPath : user -> text)
    (db : DB) (parentId : text) : list student_row :=
  flat_map
    (fun l =>
       if sql_eq (l_parentId l) parentId && sql_eq (l_status l) (Some "approved")
       then map (fun u => mkStudentRow (u_id u) (u_fullName u) (avatar u)
                                       (educationPath u) (l_status l))
                (filter (fun u => sql_eq (l_studentId l) (Some (u_id u))) (users db))
       else [])
    (parent_student_links db).

(** The answered object: [educationPath] parsed, or [null]. *)
Record student_view (json : Type) := mkStudentView
  { v_id : string; v_fullName : text; v_avatar : text;
    v_educationPath : option json; v_status : text }.

Arguments mkStudentView {json}.
Arguments v_id {json}.
Arguments v_fullName {json}.
Arguments v_avatar {json}.
Arguments v_educationPath {json}.
Arguments v_status {json}.

(** [{...s, educationPath: s.educationPath ? JSON.parse(s.educationPath) : null}];
    [JSON_parse] answers [None] where [JSON.parse] throws, and then so does
    the formatting.  NULL and the empty string are falsy. *)
Definition format_student {json} (JSON_parse : string -> option json)
    (s : student_row) : option (student_view json) :=
  let view := mkStudentView (s_id s) (s_fullName s) (s_avatar s) in
  match s_educationPath s with
  | None => Some (view None (s_status s))
  | Some EmptyString => Some (view None (s_status s))
  | Some t =>
      match JSON_parse t with
      | Some j => Some (view (Some j) (s_status s))
      | None => None
      end
  end.

(** [students.map(f)] for an [f] that may throw. *)
Fixpoint map_throwing {A B} (f : A -> option B) (l : list A) : option (list B) :=
  match l with
  | [] => Some []
  | a :: l' =>
      match f a with
      | None => None
      | Some b =>
          match map_throwing f l' with
          | None => None
          | Some bs => Some (b :: bs)
          end
      end
  end.

(** The handler: the list it answers with, or [None] when a
    [JSON.parse] throws out of it.  It writes nothing. *)
Definition listStudents {json} (JSON_parse : string -> option json)
    (avatar educationPath : user -> text) (db : DB) (parentId : text)
  : option (list (student_view json)) :=
  map_throwing (format_student JSON_parse)
               (select_students avatar educationPath db parentId).

(** ** Vocabulary of the further properties *)

Definition in_alphabet (a : ascii) : bool :=
  existsb (Ascii.eqb a) (list_ascii_of_string chars).

(** ["STU-"] followed by six characters of [chars]. *)
Definition well_formed_code (c : string) : bool :=
  String.prefix "STU-" c
  && Nat.eqb (String.length c) 10
  && forallb in_alphabet (list_ascii_of_string (String.substring 4 6 c)).

(** The first six draws of a call are values of [Math.random()]. *)
Definition draws_in_range (g : rng) : Prop :=
  forall i, (i < 6)%nat -> (0 <= g i)%Q /\ (g i < 1)%Q.

(** The draw stream whose [k]-th value picks the [k]-th index of [idx]. *)
Definition draws_for (idx : list Z) : rng :=
  fun k => (nth k idx 0%Z # 32)%Q.

Definition index_in_range (i : Z) : Prop := 0 <= i < 32.

(** The link rows other than those [decide] rewrites for [id]. *)
Definition id_unknown (db : DB) (id : string) : Prop :=
  forall l, In l (parent_student_links db) -> l_id l <> id.

(** ** Counting and concrete data used in the statements *)

(** The rows of [parent_student_links] for the pair ([P], [S]), whatever
    their status. *)
Definition is_pair (P S : string) (l : link) : bool :=
  sql_eq (l_parentId l) (Some P) && sql_eq (l_studentId l) (Some S).

Definition pair_count (db : DB) (P S : string) : nat :=
  List.length (filter (is_pair P S) (parent_student_links db)).

(** [id] is PRIMARY KEY of [parent_student_links]. *)
Definition link_ids_unique (db : DB) : Prop :=
  NoDup (map l_id (parent_student_links db)).

(** [code] is UNIQUE in [linking_codes]. *)
Definition codes_unique (db : DB) : Prop :=
  NoDup (map c_code (linking_codes db)).

Definition schema_ok (db : DB) : Prop :=
  link_ids_unique db /\ codes_unique db.

(** At most one row of student [S] is unused and unexpired at [t]. *)
Definition one_active_code (db : DB) (t : Z) : Prop :=
  forall r1 r2 S,
    In r1 (linking_codes db) -> In r2 (linking_codes db) ->
    c_studentId r1 = Some S -> c_studentId r2 = Some S ->
    unexpired t r1 = true -> unexpired t r2 = true -> r1 = r2.

(** Every stored row with code [c] is used, and there is one. *)
Definition code_spent (db : DB) (c : string) : Prop :=
  (exists r, In r (linking_codes db) /\ c_code r = c)
  /\ (forall r, In r (linking_codes db) -> c_code r = c -> c_used r = 1).

Definition is_decide (r : request) : bool :=
  match r with Decide _ _ => true | _ => false end.

Definition is_request_for (S : string) (r : request) : bool :=
  match r with RequestCode s => sql_eq s (Some S) | _ => false end.

(** *** A small concrete deployment

    One student, two parents; the student's code is issued at instant 100
    from draws that are all zero. *)

Definition demo_users : list user :=
  [ mkUser "s1" (Some "Sara") (Some "sara@example.org");
    mkUser "p1" (Some "Omar") (Some "omar@example.org");
    mkUser "p2" (Some "Mona") (Some "mona@example.org") ].

Definition zeros : rng := fun _ => 0%Q.

Definition demo_env (t : Z) (id : string) : env := mkEnv t t zeros id.

Definition demo_issue : trace :=
  [ (demo_env 0 "", UsersWrite demo_users);
    (demo_env 100 "c1", RequestCode (Some "s1")) ].

Definition demo_reject : trace :=
  (demo_issue
   ++ [ (demo_env 200 "r1", RedeemCode (Some "p1") (Some "STU-AAAAAA"));
        (demo_env 300 "", Decide "r1" (Some "rejected")) ]).

Definition demo_expiry : Z := 100 + day_ms.

(** Draws whose first six give the stored code and whose next give
    another one. *)
Definition retry_rng : rng := fun i => if (i <? 6)%nat then 0%Q else (1 # 2)%Q.

(** The code a [k]-th generation attempt would produce, were the draws
    consumed six at a time as [generateLinkingCode] does.  The source makes
    attempt 0 only; the definition serves to state the retry the
    specification describes. *)
Definition attempt (g : rng) (k : nat) : string :=
  generateLinkingCode (fun i => g (6 * k + i)%nat).

Definition demo_approve : trace :=
  (demo_issue
   ++ [ (demo_env 200 "r1", RedeemCode (Some "p1") (Some "STU-AAAAAA"));
        (demo_env 300 "", Decide "r1" (Some "approved")) ]).

Definition demo_redeem : trace :=
  (demo_issue ++ [ (demo_env 200 "r1", RedeemCode (Some "p1") (Some "STU-AAAAAA")) ]).

(** Stand-ins for the further [users] columns and for [JSON.parse] in the
    instances: a text parses when it opens a brace. *)
Definition demo_parse (t : string) : option string :=
  if String.prefix "{" t then Some t else None.

Definition demo_avatar (u : user) : text := Some ("/avatars/" ++ u_id u)%string.

Definition demo_path (u : user) : text :=
  if String.eqb (u_id u) "s1" then Some "{}" else None.

(** ** Elementary facts *)

Example generate_zero : generateLinkingCode (fun _ => 0%Q) = "STU-AAAAAA".
Proof. reflexivity. Qed.

Example generate_mixed :
  generateLinkingCode (fun i => (Z.of_nat i # 6)%Q) = "STU-AFLSX4".
Proof. vm_compute. reflexivity. Qed.

Lemma sql_eq_true (a b : text) :
  sql_eq a b = true <-> exists x, a = Some x /\ b = Some x.
Proof.
  destruct a as [x|], b as [y|]; simpl; split; try discriminate.
  - intros H. apply String.eqb_eq in H. subst. now exists y.
  - intros (z & Ha & Hb). inversion Ha; inversion Hb; subst. apply String.eqb_refl.
  - intros (z & Ha & Hb). discriminate.
  - intros (z & Ha & Hb). discriminate.
  - intros (z & Ha & Hb). discriminate.
Qed.

Lemma sql_eq_some (a : text) (x : string) :
  sql_eq a (Some x) = true <-> a = Some x.
Proof.
  rewrite sql_eq_true. split.
  - intros (z & Ha & Hb). congruence.
  - intros ->. now exists x.
Qed.

Lemma existsb_false {A} (p : A -> bool) (l : list A) :
  existsb p l = false <-> forall x, In x l -> p x = false.
Proof.
  induction l as [|a l IH]; simpl.
  - split; [intros _ x [] | reflexivity].
  - rewrite orb_false_iff, IH. split.
    + intros [Ha Hl] x [<-|Hx]; auto.
    + intros H. split; [apply H; now left | intros x Hx; apply H; now right].
Qed.

Lemma filter_map_length {A B} (p : B -> bool) (f : A -> B) (l : list A) :
  List.length (filter p (map f l)) = List.length (filter (fun x => p (f x)) l).
Proof.
  induction l as [|a l IH]; simpl; [reflexivity|].
  destruct (p (f a)); simpl; now rewrite IH.
Qed.

Lemma filter_ext_length {A} (p q : A -> bool) (l : list A) :
  (forall x, p x = q x) -> List.length (filter p l) = List.length (filter q l).
Proof.
  intros H. induction l as [|a l IH]; simpl; [reflexivity|].
  rewrite H. destruct (q a); simpl; now rewrite IH.
Qed.

Lemma filter_nil_length {A} (p : A -> bool) (l : list A) :
  (forall x, In x l -> p x = false) -> List.length (filter p l) = 0%nat.
Proof.
  intros H. induction l as [|a l IH]; simpl; [reflexivity|].
  rewrite (H a (or_introl eq_refl)). apply IH. intros x Hx. apply H. now right.
Qed.

(** *** What each handler does to the tables *)

Lemma decide_links db id st :
  parent_student_links (fst (decide db id st))
  = map (fun l => if String.eqb (l_id l) id then set_status st l else l)
        (parent_student_links db).
Proof.
  unfold decide. destruct (is_approved st); [|reflexivity].
  destruct (find _ _); reflexivity.
Qed.

Lemma decide_not_approved db id st :
  is_approved st = false ->
  decide db id st = (update_status db id st, Respond 200 SuccessBody).
Proof. unfold decide. now intros ->. Qed.

Lemma requestCode_links fk db e s :
  parent_student_links (fst (requestCode fk db e s)) = parent_student_links db.
Proof.
  unfold requestCode. destruct (existing_code _ _ _); [reflexivity|].
  simpl. destruct (code_insertable _ _ _); reflexivity.
Qed.

Lemma redeemCode_codes fk db e p c :
  linking_codes (fst (redeemCode fk db e p c)) = linking_codes db.
Proof.
  unfold redeemCode. destruct (valid_code _ _ _); [|reflexivity].
  simpl. destruct (link_insertable _ _ _); reflexivity.
Qed.

Lemma find_none_iff {A} (p : A -> bool) (l : list A) :
  find p l = None <-> forall x, In x l -> p x = false.
Proof.
  split; [apply find_none|].
  induction l as [|a l IH]; simpl; intros H; [reflexivity|].
  rewrite (H a (or_introl eq_refl)). apply IH. intros x Hx. apply H. now right.
Qed.

Lemma unexpired_true t r :
  unexpired t r = true <-> c_used r = 0 /\ t < c_expiresAt r.
Proof. unfold unexpired. rewrite andb_true_iff, Z.eqb_eq, Z.ltb_lt. tauto. Qed.

Lemma NoDup_map_inj {A B} (f : A -> B) (l : list A) a b :
  NoDup (map f l) -> In a l -> In b l -> f a = f b -> a = b.
Proof.
  induction l as [|x l IH]; simpl; [intros _ []|].
  intros Hnd Ha Hb Hf. inversion Hnd as [|? ? Hx Hnd']; subst.
  destruct Ha as [->|Ha], Hb as [->|Hb]; auto.
  - exfalso. apply Hx. rewrite Hf. now apply in_map.
  - exfalso. apply Hx. rewrite <- Hf. now apply in_map.
Qed.

Lemma map_id_on {A} (f : A -> A) (l : list A) :
  (forall x, In x l -> f x = x) -> map f l = l.
Proof.
  intros H. induction l as [|a l IH]; simpl; [reflexivity|].
  rewrite (H a (or_introl eq_refl)), IH; [reflexivity|].
  intros x Hx. apply H. now right.
Qed.

Lemma existsb_map_ext {A} (p : A -> bool) (f : A -> A) (l : list A) :
  (forall x, p (f x) = p x) -> existsb p (map f l) = existsb p l.
Proof.
  intros H. induction l as [|a l IH]; simpl; [reflexivity|].
  now rewrite H, IH.
Qed.

(** Rewriting a status leaves every INSERT check as it was. *)
Lemma link_insertable_update_status fk db id st row :
  link_insertable fk (update_status db id st) row = link_insertable fk db row.
Proof.
  unfold link_insertable, update_status; simpl.
  rewrite !existsb_map_ext; [reflexivity| |];
    intros x; destruct (String.eqb (l_id x) id); reflexivity.
Qed.

(** ** Redemption of an unknown, used or expired code *)

(** C2: when no [linking_codes] row has the submitted code with [used = 0]
    and [expiresAt] later than the clock, [redeemCode] answers 400 with
    the invalid-or-expired message and leaves the database as it was, so no
    link request is created. *)
Theorem redeem_invalid_code_rejected fk db e (parentId code : text) :
  (forall r, In r (linking_codes db) ->
             ~ (Some (c_code r) = code /\ c_used r = 0 /\ now e < c_expiresAt r)) ->
  redeemCode fk db e parentId code
  = (db, Respond 400 (MessageBody false msg_invalid_code)).
Proof.
  intros H. unfold redeemCode.
  replace (valid_code db code (now e)) with (@None linking_code); [reflexivity|].
  symmetry. apply find_none_iff. intros r Hr.
  destruct (sql_eq (Some (c_code r)) code && unexpired (now e) r) eqn:E; [|reflexivity].
  exfalso. apply andb_true_iff in E. destruct E as [E1 E2].
  apply (H r Hr). apply unexpired_true in E2.
  apply sql_eq_true in E1. destruct E1 as (x & E1 & E1'). split; [congruence|exact E2].
Qed.

Lemma redeem_invalid_code_rejected_witness :
  let db := exec true empty_db demo_issue in
  redeemCode true db (demo_env 200 "r1") (Some "p1") (Some "STU-ZZZZZZ")
  = (db, Respond 400 (MessageBody false msg_invalid_code))
  /\ redeemCode true db (demo_env (100 + day_ms) "r1") (Some "p1") (Some "STU-AAAAAA")
  = (db, Respond 400 (MessageBody false msg_invalid_code)).
Proof.
  split.
  - apply redeem_invalid_code_rejected.
    intros r [<-|[]] (Hc & _). vm_compute in Hc. discriminate.
  - apply redeem_invalid_code_rejected.
    intros r [<-|[]] (_ & _ & Ht). vm_compute in Ht. discriminate.
Defined.

(** ** A decision on an id that names no request *)

(** C6: [decide] with status approved on an id that no row carries reads
    [link.studentId] on [undefined]: it throws a TypeError out of the
    handler, not a not-found answer. *)
Theorem decide_unknown_id_throws :
  decide empty_db "no-such-id" (Some "approved") = (empty_db, Throw TypeError)
  /\ decide (exec true empty_db demo_redeem) "no-such-id" (Some "approved")
     = (exec true empty_db demo_redeem, Throw TypeError)
  /\ decide (exec true empty_db demo_redeem) "no-such-id" (Some "rejected")
     = (exec true empty_db demo_redeem, Respond 200 SuccessBody).
Proof. repeat split. Qed.

(** ** Rejection *)

Lemma update_status_split db R st :
  link_ids_unique db -> In R (parent_student_links db) ->
  exists before after,
    parent_student_links db = (before ++ R :: after)
    /\ parent_student_links (update_status db (l_id R) st)
       = (before ++ set_status st R :: after).
Proof.
  intros Hnd HR. destruct (in_split _ _ HR) as (l1 & l2 & E).
  exists l1, l2. split; [exact E|].
  assert (Hother : forall x, In x (l1 ++ l2) -> String.eqb (l_id x) (l_id R) = false).
  { intros x Hx. apply String.eqb_neq. intros Heq.
    unfold link_ids_unique in Hnd. rewrite E, map_app in Hnd. simpl in Hnd.
    apply NoDup_remove_2 in Hnd. apply Hnd. rewrite <- map_app, <- Heq.
    now apply in_map. }
  unfold update_status; simpl. rewrite E, map_app. simpl.
  rewrite String.eqb_refl. f_equal; [|f_equal].
  - apply map_id_on. intros x Hx. rewrite Hother; [reflexivity|].
    apply in_or_app. now left.
  - apply map_id_on. intros x Hx. rewrite Hother; [reflexivity|].
    apply in_or_app. now right.
Qed.

(** ** The pending list *)

Lemma matching_users_at_most_one (us : list user) (p : text) :
  NoDup (map u_id us) ->
  (List.length (filter (fun u => sql_eq p (Some (u_id u))) us) <= 1)%nat.
Proof.
  induction us as [|a us IH]; simpl; intros Hnd; [lia|].
  inversion Hnd as [|? ? Ha Hnd']; subst.
  destruct (sql_eq p (Some (u_id a))) eqn:E; [|auto].
  simpl. rewrite filter_nil_length; [lia|].
  intros u Hu. destruct (sql_eq p (Some (u_id u))) eqn:E'; [|reflexivity].
  apply sql_eq_some in E. apply sql_eq_some in E'.
  exfalso. apply Ha. replace (u_id a) with (u_id u) by congruence.
  now apply in_map.
Qed.

Lemma pending_rows_ids db s x :
  In x (map (fun row => l_id (fst (fst row))) (pending_rows db s)) ->
  In x (map l_id (parent_student_links db)).
Proof.
  unfold pending_rows. intros H. apply in_map_iff in H.
  destruct H as (row & <- & Hrow). apply in_flat_map in Hrow.
  destruct Hrow as (l & Hl & Hrow).
  destruct (sql_eq (l_studentId l) s && sql_eq (l_status l) (Some "pending"));
    [|destruct Hrow].
  apply in_map_iff in Hrow. destruct Hrow as (u & <- & _). simpl.
  now apply in_map.
Qed.

Lemma pending_rows_once us cs ls s :
  NoDup (map u_id us) -> NoDup (map l_id ls) ->
  NoDup (map (fun row => l_id (fst (fst row))) (pending_rows (mkDB us cs ls) s)).
Proof.
  intros Hu. induction ls as [|l ls IH]; intros Hl; [constructor|].
  inversion Hl as [|? ? Hnew Hl']; subst. specialize (IH Hl').
  unfold pending_rows in *. simpl in *. rewrite map_app.
  destruct (sql_eq (l_studentId l) s && sql_eq (l_status l) (Some "pending"));
    [|exact IH].
  pose proof (matching_users_at_most_one us (l_parentId l) Hu) as Hone.
  destruct (filter (fun u => sql_eq (l_parentId l) (Some (u_id u))) us) as [|u [|u' rest]];
    simpl in *; [exact IH| |lia].
  constructor; [|exact IH].
  intros Hin. apply Hnew.
  apply (pending_rows_ids (mkDB us cs ls) s). exact Hin.
Qed.

(** C10: the pending list of student [S] holds exactly the rows built from a
    link row of [S] with status pending and a [users] row whose id is the
    link's [parentId], carrying that user's name and email; a link whose
    [parentId] is the id of no user contributes no row; and with the two
    primary keys in force no request is listed twice. *)
Theorem pending_list_is_inner_join db S :
  listPending db (Some S) = (db, Respond 200 (PendingRows (pending_rows db (Some S))))
  /\ (forall row,
        In row (pending_rows db (Some S)) <->
        exists l u,
          In l (parent_student_links db) /\ In u (users db)
          /\ l_studentId l = Some S /\ l_status l = Some "pending"
          /\ l_parentId l = Some (u_id u)
          /\ row = (l, u_fullName u, u_email u))
  /\ (forall l,
        (forall u, In u (users db) -> l_parentId l <> Some (u_id u)) ->
        forall name email, ~ In (l, name, email) (pending_rows db (Some S)))
  /\ (NoDup (map u_id (users db)) -> link_ids_unique db ->
      NoDup (map (fun row => l_id (fst (fst row))) (pending_rows db (Some S)))).
Proof.
  assert (Hiff : forall row,
        In row (pending_rows db (Some S)) <->
        exists l u,
          In l (parent_student_links db) /\ In u (users db)
          /\ l_studentId l = Some S /\ l_status l = Some "pending"
          /\ l_parentId l = Some (u_id u)
          /\ row = (l, u_fullName u, u_email u)).
  { intros row. unfold pending_rows. rewrite in_flat_map. split.
    - intros (l & Hl & Hrow).
      destruct (sql_eq (l_studentId l) (Some S) && sql_eq (l_status l) (Some "pending")) eqn:E;
        [|destruct Hrow].
      apply andb_true_iff in E. destruct E as [E1 E2].
      apply sql_eq_some in E1. apply sql_eq_some in E2.
      apply in_map_iff in Hrow. destruct Hrow as (u & <- & Hu).
      apply filter_In in Hu. destruct Hu as [Hu Hp]. apply sql_eq_true in Hp.
      destruct Hp as (x & Hp1 & Hp2). exists l, u. repeat split; auto. congruence.
    - intros (l & u & Hl & Hu & Hs & Hst & Hp & ->). exists l. split; [exact Hl|].
      rewrite Hs, Hst. simpl. rewrite !String.eqb_refl. simpl.
      apply in_map_iff. exists u. split; [reflexivity|].
      apply filter_In. split; [exact Hu|]. rewrite Hp. simpl. apply String.eqb_refl. }
  split; [reflexivity|]. split; [exact Hiff|]. split.
  - intros l Hnone name email Hin. apply Hiff in Hin.
    destruct Hin as (l' & u & _ & Hu & _ & _ & Hp & Heq).
    inversion Heq; subst. exact (Hnone u Hu Hp).
  - intros Hu Hl. destruct db as [us cs ls]. now apply pending_rows_once.
Qed.

Lemma pending_list_is_inner_join_witness :
  let ghost := mkLink "r9" (Some "gone") (Some "s1") (Some "pending") 300 in
  let db := insert_link (exec false empty_db demo_redeem) ghost in
  (forall name email, ~ In (ghost, name, email) (pending_rows db (Some "s1")))
  /\ pending_rows db (Some "s1")
     = [ (mkLink "r1" (Some "p1") (Some "s1") (Some "pending") 200,
          Some "Omar", Some "omar@example.org") ].
Proof.
  intros ghost db. split; [|reflexivity].
  destruct (pending_list_is_inner_join db "s1") as (_ & _ & Homit & _).
  apply Homit. intros u [<-|[<-|[<-|[]]]]; discriminate.
Defined.

(** ** One request per (parent, student) pair *)

Lemma pair_count_decide db id st P S :
  pair_count (fst (decide db id st)) P S = pair_count db P S.
Proof.
  unfold pair_count. rewrite decide_links, filter_map_length.
  apply filter_ext_length. intros x. destruct (String.eqb (l_id x) id); reflexivity.
Qed.

Lemma pair_count_insert db row P S :
  pair_count (insert_link db row) P S
  = (pair_count db P S + if is_pair P S row then 1 else 0)%nat.
Proof.
  unfold pair_count, insert_link; simpl. rewrite filter_app, length_app. simpl.
  destruct (is_pair P S row); reflexivity.
Qed.

Lemma is_pair_spec P S l :
  is_pair P S l = true <-> l_parentId l = Some P /\ l_studentId l = Some S.
Proof. unfold is_pair. now rewrite andb_true_iff, !sql_eq_some. Qed.

(** The UNIQUE(parentId, studentId) check refuses a second row of a pair. *)
Lemma link_insertable_fresh_pair fk db row P S :
  link_insertable fk db row = true -> is_pair P S row = true ->
  pair_count db P S = 0%nat.
Proof.
  intros Hins Hrow. unfold link_insertable in Hins.
  apply andb_true_iff in Hins. destruct Hins as [Hins _].
  apply andb_true_iff in Hins. destruct Hins as [_ Hu].
  apply negb_true_iff in Hu. rewrite existsb_false in Hu.
  apply filter_nil_length. intros l Hl.
  destruct (is_pair P S l) eqn:E; [|reflexivity].
  apply is_pair_spec in E. apply is_pair_spec in Hrow.
  destruct E as [E1 E2], Hrow as [R1 R2].
  specialize (Hu l Hl). unfold same_pair in Hu.
  rewrite E1, E2, R1, R2 in Hu. simpl in Hu. rewrite !String.eqb_refl in Hu.
  discriminate.
Qed.

Lemma link_insertable_taken_pair fk db row P S :
  (0 < pair_count db P S)%nat -> is_pair P S row = true ->
  link_insertable fk db row = false.
Proof.
  intros Hpos Hrow. destruct (link_insertable fk db row) eqn:E; [|reflexivity].
  rewrite (link_insertable_fresh_pair fk db row P S E Hrow) in Hpos. lia.
Qed.

Lemma redeemCode_creates_pair fk db e P S code cd b :
  valid_code db code (now e) = Some cd -> c_studentId cd = Some S ->
  snd (redeemCode fk db e (Some P) code) = Respond 200 b ->
  (0 < pair_count (fst (redeemCode fk db e (Some P) code)) P S)%nat.
Proof.
  unfold redeemCode. intros -> Hs. cbv zeta.
  destruct (link_insertable fk db _); simpl; [intros _|discriminate].
  rewrite pair_count_insert.
  replace (is_pair P S _) with true; [lia|].
  symmetry. apply is_pair_spec. simpl. auto.
Qed.

Lemma handle_pair_count fk db e r P S :
  (pair_count db P S <= pair_count (fst (handle fk db e r)) P S)%nat
  /\ ((pair_count db P S <= 1)%nat ->
      (pair_count (fst (handle fk db e r)) P S <= 1)%nat).
Proof.
  destruct r as [s|p c|s|id st|us]; simpl.
  - unfold pair_count. rewrite requestCode_links. lia.
  - unfold redeemCode. destruct (valid_code db c (now e)) as [cd|]; simpl; [|lia].
    destruct (link_insertable fk db _) eqn:E; simpl; [|lia].
    rewrite pair_count_insert.
    destruct (is_pair P S _) eqn:Ep; [|lia].
    rewrite (link_insertable_fresh_pair _ _ _ _ _ E Ep). lia.
  - lia.
  - rewrite pair_count_decide. lia.
  - unfold pair_count; simpl. lia.
Qed.

Lemma exec_pair_count fk tr : forall db P S,
  (pair_count db P S <= pair_count (exec fk db tr) P S)%nat
  /\ ((pair_count db P S <= 1)%nat -> (pair_count (exec fk db tr) P S <= 1)%nat).
Proof.
  induction tr as [|[e r] tr IH]; intros db P S; simpl; [lia|].
  destruct (handle_pair_count fk db e r P S) as [H1 H2].
  destruct (IH (fst (handle fk db e r)) P S) as [H3 H4].
  split; [lia|auto].
Qed.

(** C1: in every database the server can reach, a pair (parent [P],
    student [S]) has at most one link request, whatever its status.  Once
    the pair has a request, it keeps exactly that one through every later
    request (a rejection included), and a redemption by [P] of a code that
    is valid and belongs to [S] is answered 400 with the already-exists
    message and leaves the database unchanged.  In particular this is so
    for a second redemption, whatever was served since the first. *)
Theorem link_request_unique_per_pair fk tr P S :
  let db := exec fk empty_db tr in
  (pair_count db P S <= 1)%nat
  /\ (forall tr', (0 < pair_count db P S)%nat ->
                  pair_count (exec fk db tr') P S = 1%nat)
  /\ (forall e code codeData,
        (0 < pair_count db P S)%nat ->
        valid_code db code (now e) = Some codeData ->
        c_studentId codeData = Some S ->
        redeemCode fk db e (Some P) code
        = (db, Respond 400 (MessageBody false msg_link_exists)))
  /\ (forall e1 code1 codeData1 tr' e2 code2 codeData2,
        valid_code db code1 (now e1) = Some codeData1 ->
        c_studentId codeData1 = Some S ->
        snd (redeemCode fk db e1 (Some P) code1)
        = Respond 200 (MessageBody true msg_link_sent) ->
        let db' := exec fk (fst (redeemCode fk db e1 (Some P) code1)) tr' in
        valid_code db' code2 (now e2) = Some codeData2 ->
        c_studentId codeData2 = Some S ->
        redeemCode fk db' e2 (Some P) code2
        = (db', Respond 400 (MessageBody false msg_link_exists))).
Proof.
  intros db.
  assert (Hle : (pair_count db P S <= 1)%nat).
  { apply (exec_pair_count fk tr empty_db P S). unfold pair_count; simpl. lia. }
  assert (Hdup : forall d e code cd,
             (0 < pair_count d P S)%nat ->
             valid_code d code (now e) = Some cd -> c_studentId cd = Some S ->
             redeemCode fk d e (Some P) code
             = (d, Respond 400 (MessageBody false msg_link_exists))).
  { intros d e code cd Hpos Hv Hs. unfold redeemCode. rewrite Hv. cbv zeta.
    rewrite (link_insertable_taken_pair fk d _ P S Hpos); [reflexivity|].
    apply is_pair_spec. simpl. auto. }
  split; [exact Hle|]. split; [|split].
  - intros tr' Hpos. destruct (exec_pair_count fk tr' db P S) as [H1 H2].
    specialize (H2 Hle). lia.
  - intros e code cd. apply Hdup.
  - intros e1 code1 cd1 tr' e2 code2 cd2 Hv1 Hs1 Hok db' Hv2 Hs2.
    apply (Hdup db' e2 code2 cd2); auto. subst db'.
    apply (Nat.lt_le_trans _ (pair_count (fst (redeemCode fk db e1 (Some P) code1)) P S));
      [|apply exec_pair_count].
    apply (redeemCode_creates_pair fk db e1 P S code1 cd1 _ Hv1 Hs1 Hok).
Qed.

Lemma link_request_unique_per_pair_witness :
  let db := exec true empty_db demo_reject in
  parent_student_links db
  = [ mkLink "r1" (Some "p1") (Some "s1") (Some "rejected") 200 ]
  /\ redeemCode true db (demo_env 400 "r2") (Some "p1") (Some "STU-AAAAAA")
     = (db, Respond 400 (MessageBody false msg_link_exists)).
Proof.
  intros db. split; [reflexivity|].
  destruct (link_request_unique_per_pair true demo_issue "p1" "s1") as (_ & _ & _ & H).
  apply (H (demo_env 200 "r1") (Some "STU-AAAAAA")
           (mkCode "c1" (Some "s1") "STU-AAAAAA" demo_expiry 0)
           [ (demo_env 300 "", Decide "r1" (Some "rejected")) ]
           (demo_env 400 "r2") (Some "STU-AAAAAA")
           (mkCode "c1" (Some "s1") "STU-AAAAAA" demo_expiry 0));
    reflexivity.
Defined.

(** ** Schema constraints hold in every reachable database *)

Lemma NoDup_app_one {A} (l : list A) (a : A) :
  NoDup l -> ~ In a l -> NoDup (l ++ [a]).
Proof.
  intros Hnd Hn. induction l as [|x l IH]; simpl.
  - constructor; [intros []|constructor].
  - inversion Hnd; subst. constructor.
    + rewrite in_app_iff. intros [H|[H|[]]]; [contradiction|].
      subst. apply Hn. now left.
    + apply IH; auto. intros H. apply Hn. now right.
Qed.

Lemma existsb_eqb_false_notin {A} (f : A -> string) (l : list A) (k : string) :
  existsb (fun x => String.eqb (f x) k) l = false -> ~ In k (map f l).
Proof.
  intros H Hin. rewrite existsb_false in H.
  apply in_map_iff in Hin. destruct Hin as (x & Hx & Hin).
  specialize (H x Hin). rewrite Hx, String.eqb_refl in H. discriminate.
Qed.

Lemma code_insertable_fresh fk db row :
  code_insertable fk db row = true ->
  ~ In (c_id row) (map c_id (linking_codes db))
  /\ ~ In (c_code row) (map c_code (linking_codes db)).
Proof.
  unfold code_insertable. rewrite !andb_true_iff, !negb_true_iff.
  intros [[H1 H2] _]. split; now apply existsb_eqb_false_notin.
Qed.

Lemma invalidate_codes_codes db s :
  map c_code (linking_codes (invalidate_codes db s)) = map c_code (linking_codes db).
Proof.
  unfold invalidate_codes; simpl. rewrite map_map. apply map_ext.
  intros r. destruct (sql_eq (c_studentId r) s); reflexivity.
Qed.

Lemma update_status_ids db id st :
  map l_id (parent_student_links (update_status db id st))
  = map l_id (parent_student_links db).
Proof.
  unfold update_status; simpl. rewrite map_map. apply map_ext.
  intros l. destruct (String.eqb (l_id l) id); reflexivity.
Qed.

Lemma decide_schema_ok db id st :
  schema_ok db -> schema_ok (fst (decide db id st)).
Proof.
  intros [Hl Hc]. unfold schema_ok, link_ids_unique, codes_unique.
  unfold decide. destruct (is_approved st); simpl.
  - destruct (find _ _) as [l|]; simpl.
    + rewrite map_map.
      replace (map (fun x => l_id (if String.eqb (l_id x) id then set_status st x else x))
                   (parent_student_links db))
        with (map l_id (parent_student_links db)).
      2:{ apply map_ext. intros x. destruct (String.eqb (l_id x) id); reflexivity. }
      split; [exact Hl|].
      change (NoDup (map c_code (linking_codes
                (invalidate_codes (update_status db id st) (l_studentId l))))).
      rewrite invalidate_codes_codes. exact Hc.
    + split; [|exact Hc].
      change (NoDup (map l_id (parent_student_links (update_status db id st)))).
      now rewrite update_status_ids.
  - split; [|exact Hc].
    change (NoDup (map l_id (parent_student_links (update_status db id st)))).
    now rewrite update_status_ids.
Qed.

Lemma handle_schema_ok fk db e r :
  schema_ok db -> schema_ok (fst (handle fk db e r)).
Proof.
  intros H. destruct r as [s|p c|s|id st|us]; simpl.
  - unfold requestCode. destruct (existing_code _ _ _); [exact H|].
    cbv zeta. destruct (code_insertable fk db _) eqn:E; [|exact H].
    apply code_insertable_fresh in E. destruct E as [_ E]. destruct H as [Hl Hc].
    split; [exact Hl|]. unfold codes_unique; simpl. rewrite map_app. simpl.
    now apply NoDup_app_one.
  - unfold redeemCode. destruct (valid_code _ _ _); [|exact H].
    cbv zeta. destruct (link_insertable fk db _) eqn:E; [|exact H].
    destruct H as [Hl Hc]. split; [|exact Hc].
    unfold link_ids_unique; simpl. rewrite map_app. simpl.
    apply NoDup_app_one; [exact Hl|].
    unfold link_insertable in E. rewrite !andb_true_iff, !negb_true_iff in E.
    destruct E as [[E _] _]. now apply existsb_eqb_false_notin in E.
  - exact H.
  - now apply decide_schema_ok.
  - exact H.
Qed.

Lemma exec_schema_ok fk tr : forall db, schema_ok db -> schema_ok (exec fk db tr).
Proof.
  induction tr as [|[e r] tr IH]; intros db H; simpl; [exact H|].
  apply IH. now apply handle_schema_ok.
Qed.

Lemma reachable_schema_ok fk tr : schema_ok (exec fk empty_db tr).
Proof. apply exec_schema_ok. split; constructor. Qed.

(** ** Rejection changes one status cell *)

(** C8: rejecting the request [R] rewrites the status cell of [R]'s row and
    nothing else: the other rows, [users] and every [linking_codes] row stay
    as they are, so each code is valid exactly when it was before and every
    later redemption is answered as it would have been before. *)
Theorem reject_changes_status_only fk tr R :
  let db := exec fk empty_db tr in
  In R (parent_student_links db) ->
  let db' := fst (decide db (l_id R) (Some "rejected")) in
  snd (decide db (l_id R) (Some "rejected")) = Respond 200 SuccessBody
  /\ linking_codes db' = linking_codes db
  /\ users db' = users db
  /\ (exists before after,
        parent_student_links db = before ++ R :: after
        /\ parent_student_links db'
           = before ++ set_status (Some "rejected") R :: after)
  /\ (forall code t, valid_code db' code t = valid_code db code t)
  /\ (forall e P code,
        snd (redeemCode fk db' e P code) = snd (redeemCode fk db e P code)).
Proof.
  intros db HR db'.
  destruct (reachable_schema_ok fk tr) as [Hnd _]. fold db in Hnd.
  assert (Hd : decide db (l_id R) (Some "rejected")
               = (update_status db (l_id R) (Some "rejected"), Respond 200 SuccessBody))
    by (apply decide_not_approved; reflexivity).
  subst db'. rewrite Hd. simpl fst. simpl snd.
  split; [reflexivity|]. split; [reflexivity|]. split; [reflexivity|].
  split; [now apply update_status_split|].
  split; [reflexivity|].
  intros e P code. unfold redeemCode.
  change (valid_code (update_status db (l_id R) (Some "rejected")) code (now e))
    with (valid_code db code (now e)).
  destruct (valid_code db code (now e)) as [cd|]; [|reflexivity].
  cbv zeta. rewrite link_insertable_update_status.
  destruct (link_insertable fk db _); reflexivity.
Qed.

Lemma reject_changes_status_only_witness :
  let db := exec true empty_db demo_redeem in
  let R := mkLink "r1" (Some "p1") (Some "s1") (Some "pending") 200 in
  let db' := fst (decide db "r1" (Some "rejected")) in
  linking_codes db' = [ mkCode "c1" (Some "s1") "STU-AAAAAA" demo_expiry 0 ]
  /\ parent_student_links db' = [set_status (Some "rejected") R]
  /\ snd (redeemCode true db' (demo_env 400 "r2") (Some "p2") (Some "STU-AAAAAA"))
     = Respond 200 (MessageBody true msg_link_sent).
Proof.
  intros db R db'.
  destruct (reject_changes_status_only true demo_redeem R)
    as (_ & Hc & _ & _ & _ & Hredeem).
  - vm_compute. now left.
  - split; [exact Hc|]. split; [reflexivity|].
    fold db in Hredeem. fold db'. rewrite Hredeem. reflexivity.
Defined.

(** ** Approval *)

Lemma redeemCode_no_valid fk db e p code :
  valid_code db code (now e) = None ->
  redeemCode fk db e p code = (db, Respond 400 (MessageBody false msg_invalid_code)).
Proof. intros H. unfold redeemCode. now rewrite H. Qed.

Lemma code_spent_not_valid db c t :
  code_spent db c -> valid_code db (Some c) t = None.
Proof.
  intros [_ Hall]. apply find_none_iff. intros r Hr.
  destruct (sql_eq (Some (c_code r)) (Some c)) eqn:E; [|reflexivity].
  apply sql_eq_some in E. inversion E as [E'].
  unfold unexpired. rewrite (Hall r Hr E'). reflexivity.
Qed.

Lemma invalidate_codes_spent db s c :
  code_spent db c -> code_spent (invalidate_codes db s) c.
Proof.
  intros [(r & Hr & Hc) Hall]. split.
  - exists (if sql_eq (c_studentId r) s then set_used r else r). split.
    + unfold invalidate_codes; simpl.
      apply (in_map (fun r => if sql_eq (c_studentId r) s then set_used r else r)) in Hr.
      exact Hr.
    + destruct (sql_eq (c_studentId r) s); exact Hc.
  - intros r' Hr' Hc'. unfold invalidate_codes in Hr'; simpl in Hr'.
    apply in_map_iff in Hr'. destruct Hr' as (r0 & <- & Hr0).
    destruct (sql_eq (c_studentId r0) s); [reflexivity|]. now apply Hall.
Qed.

(** No request makes a spent code usable again, and the UNIQUE constraint
    keeps a fresh row from reusing it. *)
Lemma handle_code_spent fk db e r c :
  code_spent db c -> code_spent (fst (handle fk db e r)) c.
Proof.
  intros H. destruct r as [s|p cd|s|id st|us]; simpl.
  - unfold requestCode. destruct (existing_code _ _ _); [exact H|].
    cbv zeta. destruct (code_insertable fk db _) eqn:E; [|exact H].
    apply code_insertable_fresh in E. destruct E as [_ E]. simpl in E.
    destruct H as [(r & Hr & Hc) Hall]. split.
    + exists r. split; [|exact Hc]. simpl. apply in_or_app. now left.
    + intros r' Hr' Hc'. simpl in Hr'. apply in_app_or in Hr'.
      destruct Hr' as [Hr'|[<-|[]]]; [now apply Hall|].
      exfalso. apply E. simpl in Hc'. rewrite Hc', <- Hc. now apply in_map.
  - unfold code_spent. now rewrite redeemCode_codes.
  - exact H.
  - unfold decide. destruct (is_approved st); [|exact H].
    destruct (find _ _) as [l|]; [|exact H]. simpl.
    now apply (invalidate_codes_spent (update_status db id st)).
  - exact H.
Qed.

Lemma exec_code_spent fk tr c : forall db,
  code_spent db c -> code_spent (exec fk db tr) c.
Proof.
  induction tr as [|[e r] tr IH]; intros db H; simpl; [exact H|].
  apply IH. now apply handle_code_spent.
Qed.

Lemma find_id_after_update db R st :
  link_ids_unique db -> In R (parent_student_links db) ->
  find (fun l => String.eqb (l_id l) (l_id R))
       (parent_student_links (update_status db (l_id R) st))
  = Some (set_status st R).
Proof.
  intros Hnd HR.
  destruct (update_status_split db R st Hnd HR) as (l1 & l2 & E & E').
  rewrite E'.
  assert (Hl1 : forall x, In x l1 -> String.eqb (l_id x) (l_id R) = false).
  { intros x Hx. apply String.eqb_neq. intros Heq.
    unfold link_ids_unique in Hnd. rewrite E, map_app in Hnd. simpl in Hnd.
    apply NoDup_remove_2 in Hnd. apply Hnd. apply in_or_app. left.
    rewrite <- Heq. now apply in_map. }
  clear E E'. induction l1 as [|x l1 IH]; simpl.
  - now rewrite String.eqb_refl.
  - rewrite (Hl1 x (or_introl eq_refl)). apply IH. intros y Hy. apply Hl1. now right.
Qed.

Lemma decide_approved db R :
  link_ids_unique db -> In R (parent_student_links db) ->
  decide db (l_id R) (Some "approved")
  = (invalidate_codes (update_status db (l_id R) (Some "approved")) (l_studentId R),
     Respond 200 SuccessBody).
Proof.
  intros Hnd HR. unfold decide. simpl is_approved. cbv iota zeta.
  now rewrite find_id_after_update.
Qed.

(** C3: approving a request [R] of student [S] succeeds and leaves every
    [linking_codes] row of [S] with [used = 1]; from then on, whatever
    requests are served in between, redeeming any code that a row of [S]
    carried at the approval is answered 400 with the invalid-or-expired
    message and changes nothing. *)
Theorem approval_invalidates_student_codes fk tr R S :
  let db := exec fk empty_db tr in
  In R (parent_student_links db) -> l_studentId R = Some S ->
  let db' := fst (decide db (l_id R) (Some "approved")) in
  snd (decide db (l_id R) (Some "approved")) = Respond 200 SuccessBody
  /\ (forall r, In r (linking_codes db') -> c_studentId r = Some S -> c_used r = 1)
  /\ (forall r tr' e P,
        In r (linking_codes db) -> c_studentId r = Some S ->
        let db'' := exec fk db' tr' in
        redeemCode fk db'' e P (Some (c_code r))
        = (db'', Respond 400 (MessageBody false msg_invalid_code))).
Proof.
  intros db HR HS db'.
  destruct (reachable_schema_ok fk tr) as [Hids Hcodes]. fold db in Hids, Hcodes.
  subst db'. rewrite (decide_approved db R Hids HR), HS. simpl fst. simpl snd.
  assert (Hused : forall r,
             In r (linking_codes (invalidate_codes
                     (update_status db (l_id R) (Some "approved")) (Some S))) ->
             c_studentId r = Some S -> c_used r = 1).
  { intros r Hr Hs. unfold invalidate_codes in Hr; simpl in Hr.
    apply in_map_iff in Hr. destruct Hr as (r0 & <- & Hr0).
    destruct (sql_eq (c_studentId r0) (Some S)) eqn:E; [reflexivity|].
    apply sql_eq_some in Hs. congruence. }
  split; [reflexivity|]. split; [exact Hused|].
  intros r tr' e P Hr Hs db''. apply redeemCode_no_valid, code_spent_not_valid.
  apply exec_code_spent. split.
  - exists (set_used r). split; [|reflexivity].
    unfold invalidate_codes; simpl. apply in_map_iff. exists r.
    split; [|exact Hr]. rewrite Hs. simpl. now rewrite String.eqb_refl.
  - intros r' Hr' Hc'. apply Hused; [exact Hr'|].
    unfold invalidate_codes in Hr'; simpl in Hr'.
    apply in_map_iff in Hr'. destruct Hr' as (r0 & <- & Hr0).
    assert (r0 = r).
    { apply (NoDup_map_inj c_code (linking_codes db)); auto.
      destruct (sql_eq (c_studentId r0) (Some S)); exact Hc'. }
    subst r0. rewrite Hs. simpl. now rewrite String.eqb_refl.
Qed.

Lemma approval_invalidates_student_codes_witness :
  let db := exec true empty_db demo_redeem in
  let db' := fst (decide db "r1" (Some "approved")) in
  linking_codes db' = [ mkCode "c1" (Some "s1") "STU-AAAAAA" (100 + day_ms) 1 ]
  /\ redeemCode true db' (demo_env 400 "r2") (Some "p2") (Some "STU-AAAAAA")
     = (db', Respond 400 (MessageBody false msg_invalid_code)).
Proof.
  intros db db'. split; [reflexivity|].
  destruct (approval_invalidates_student_codes true demo_redeem
              (mkLink "r1" (Some "p1") (Some "s1") (Some "pending") 200) "s1")
    as (_ & _ & H).
  - vm_compute. now left.
  - reflexivity.
  - apply (H (mkCode "c1" (Some "s1") "STU-AAAAAA" (100 + day_ms) 0) []
             (demo_env 400 "r2") (Some "p2")).
    + vm_compute. now left.
    + reflexivity.
Defined.

(** ** Issuing a code *)

Lemma unexpired_earlier t t' r :
  t <= t' -> unexpired t' r = true -> unexpired t r = true.
Proof. rewrite !unexpired_true. lia. Qed.

Lemma one_active_code_later db t t' :
  t <= t' -> one_active_code db t -> one_active_code db t'.
Proof.
  intros Hle H r1 r2 S H1 H2 S1 S2 U1 U2.
  apply (H r1 r2 S); eauto using unexpired_earlier.
Qed.

Lemma existing_code_some db s t r :
  existing_code db s t = Some r ->
  In r (linking_codes db) /\ c_studentId r = s /\ unexpired t r = true.
Proof.
  intros H. apply find_some in H. destruct H as [Hin H].
  apply andb_true_iff in H. destruct H as [H1 H2].
  apply sql_eq_true in H1. destruct H1 as (x & -> & ->). auto.
Qed.

Lemma existing_code_none db S t r :
  existing_code db (Some S) t = None ->
  In r (linking_codes db) -> c_studentId r = Some S -> unexpired t r = false.
Proof.
  intros H Hin Hs. apply (proj1 (find_none_iff _ _)) with (x := r) in H; [|exact Hin].
  rewrite Hs in H. simpl in H. now rewrite String.eqb_refl in H.
Qed.

Lemma existing_code_found db S t r :
  In r (linking_codes db) -> c_studentId r = Some S -> unexpired t r = true ->
  exists r', existing_code db (Some S) t = Some r'.
Proof.
  intros Hin Hs Hu. destruct (existing_code db (Some S) t) as [r'|] eqn:E; [eauto|].
  rewrite (existing_code_none db S t r E Hin Hs) in Hu. discriminate.
Qed.

Lemma set_used_choice (b : bool) r :
  c_used (if b then set_used r else r) = 0 -> (if b then set_used r else r) = r.
Proof. destruct b; simpl; [discriminate|reflexivity]. Qed.

(** With a clock that never goes back, serving a request keeps at most one
    unused, unexpired code per student. *)
Lemma handle_one_active fk db e r t :
  t <= now e -> now e <= now2 e ->
  one_active_code db t -> one_active_code (fst (handle fk db e r)) (now2 e).
Proof.
  intros H1 H2 Hinv.
  assert (Hlater : one_active_code db (now2 e))
    by (apply (one_active_code_later db t); [lia|exact Hinv]).
  destruct r as [s|p c|s|id st|us]; simpl; try exact Hlater.
  - unfold requestCode. destruct (existing_code db s (now e)) eqn:Ex; [exact Hlater|].
    cbv zeta. destruct (code_insertable fk db _); [|exact Hlater]. simpl.
    assert (Hold : forall r S, In r (linking_codes db) -> c_studentId r = Some S ->
                               s = Some S -> unexpired (now2 e) r = true -> False).
    { intros r S Hr Hs -> Hu. apply (unexpired_earlier (now e)) in Hu; [|exact H2].
      rewrite (existing_code_none db S (now e) r Ex Hr Hs) in Hu. discriminate. }
    intros r1 r2 S In1 In2 S1 S2 U1 U2. simpl in In1, In2.
    apply in_app_or in In1. apply in_app_or in In2.
    destruct In1 as [In1|[<-|[]]], In2 as [In2|[<-|[]]].
    + apply (Hlater r1 r2 S); auto.
    + exfalso. apply (Hold r1 S); auto.
    + exfalso. apply (Hold r2 S); auto.
    + reflexivity.
  - unfold one_active_code. now rewrite redeemCode_codes.
  - unfold decide. destruct (is_approved st); [|exact Hlater].
    destruct (find _ _) as [l|]; [|exact Hlater]. simpl.
    intros r1 r2 S In1 In2 S1 S2 U1 U2. simpl in In1, In2.
    apply in_map_iff in In1. destruct In1 as (a & E1 & In1).
    apply in_map_iff in In2. destruct In2 as (b & E2 & In2).
    apply unexpired_true in U1 as U1'. apply unexpired_true in U2 as U2'.
    rewrite <- E1 in U1'. rewrite <- E2 in U2'.
    rewrite set_used_choice in E1 by tauto. rewrite set_used_choice in E2 by tauto.
    subst a b. apply (Hlater r1 r2 S); auto.
Qed.

Lemma exec_one_active fk tr : forall db t,
  clock_ok t tr -> one_active_code db t ->
  one_active_code (exec fk db tr) (clock_end t tr).
Proof.
  induction tr as [|[e r] tr IH]; intros db t Hc Hinv; simpl; [exact Hinv|].
  destruct Hc as (H1 & H2 & Hc). apply IH; [exact Hc|].
  now apply (handle_one_active fk db e r t).
Qed.

Lemma clock_ok_app t tr1 tr2 :
  clock_ok t (tr1 ++ tr2) <-> clock_ok t tr1 /\ clock_ok (clock_end t tr1) tr2.
Proof.
  revert t. induction tr1 as [|[e r] tr1 IH]; intros t; simpl; [tauto|].
  rewrite IH. tauto.
Qed.

Lemma clock_end_le t tr : clock_ok t tr -> t <= clock_end t tr.
Proof.
  revert t. induction tr as [|[e r] tr IH]; intros t; simpl; [lia|].
  intros (H1 & H2 & H3). specialize (IH _ H3). lia.
Qed.

(** A request other than [requestCode(S)] adds no unused row of [S]. *)
Lemma handle_unused_rows fk db e r S row :
  is_request_for S r = false ->
  In row (linking_codes (fst (handle fk db e r))) ->
  c_studentId row = Some S -> c_used row = 0 ->
  In row (linking_codes db).
Proof.
  intros Hr Hin Hs Hu. destruct r as [s|p c|s|id st|us]; simpl in *; auto.
  - unfold requestCode in Hin. destruct (existing_code db s (now e)); [exact Hin|].
    cbv zeta in Hin. destruct (code_insertable fk db _); [|exact Hin].
    simpl in Hin. apply in_app_or in Hin. destruct Hin as [Hin|[<-|[]]]; [exact Hin|].
    simpl in Hs. rewrite Hs in Hr. simpl in Hr. rewrite String.eqb_refl in Hr.
    discriminate.
  - now rewrite redeemCode_codes in Hin.
  - unfold decide in Hin. destruct (is_approved st); [|exact Hin].
    destruct (find _ _) as [l|]; [|exact Hin]. simpl in Hin.
    apply in_map_iff in Hin. destruct Hin as (a & E & Hin).
    rewrite <- E in Hu. rewrite set_used_choice in E by exact Hu. now subst a.
Qed.

Lemma exec_unused_rows fk S tr : forall db row,
  forallb (fun x => negb (is_request_for S (snd x))) tr = true ->
  In row (linking_codes (exec fk db tr)) ->
  c_studentId row = Some S -> c_used row = 0 ->
  In row (linking_codes db).
Proof.
  induction tr as [|[e r] tr IH]; intros db row Hall Hin Hs Hu; simpl in *; [exact Hin|].
  apply andb_true_iff in Hall. destruct Hall as [Hr Hall].
  apply negb_true_iff in Hr.
  apply (handle_unused_rows fk db e r S); auto.
Qed.

(** C5: let [requestCode(S)] be served twice, the clock never going back,
    with any requests other than [requestCode(S)] in between.  If the first
    call answered with a code and, at the second call, some row of [S] is
    unused and expires after the clock, the second call answers with the
    same code and the same [expiresAt], and the database it leaves is the
    one it found: nothing inserted, nothing modified. *)
Theorem requestCode_idempotent fk S t0 tr0 e1 mid e2 code1 exp1 :
  let db0 := exec fk empty_db tr0 in
  let db1 := fst (requestCode fk db0 e1 (Some S)) in
  let db2 := exec fk db1 mid in
  clock_ok t0 (tr0 ++ (e1, RequestCode (Some S)) :: mid
                   ++ [(e2, RequestCode (Some S))]) ->
  forallb (fun x => negb (is_request_for S (snd x))) mid = true ->
  snd (requestCode fk db0 e1 (Some S)) = Respond 200 (CodeBody code1 exp1) ->
  (exists r, In r (linking_codes db2) /\ c_studentId r = Some S
             /\ c_used r = 0 /\ now e2 < c_expiresAt r) ->
  requestCode fk db2 e2 (Some S) = (db2, Respond 200 (CodeBody code1 exp1)).
Proof.
  intros db0 db1 db2 Hclock Hmid Hfirst (r & Hr & Hs & Hu & Ht).
  apply clock_ok_app in Hclock. destruct Hclock as [Hc0 Hclock].
  simpl in Hclock. destruct Hclock as (Ha & Hb & Hclock).
  apply clock_ok_app in Hclock. destruct Hclock as [Hcm Hclock].
  simpl in Hclock. destruct Hclock as (Hc & _ & _).
  pose proof (clock_end_le _ _ Hc0) as Hle0.
  pose proof (clock_end_le _ _ Hcm) as Hlem.
  assert (H12 : now e1 <= now e2) by lia.
  assert (Hinv0 : one_active_code db0 (now e1)).
  { apply (one_active_code_later db0 (clock_end t0 tr0)); [exact Ha|].
    apply exec_one_active; [exact Hc0|]. intros ? ? ? []. }
  assert (Hvalid : unexpired (now e2) r = true) by (apply unexpired_true; auto).
  destruct (existing_code_found db2 S (now e2) r Hr Hs Hvalid) as (r2 & E2).
  destruct (existing_code_some _ _ _ _ E2) as (In2 & S2 & U2).
  assert (In1 : In r2 (linking_codes db1)).
  { apply (exec_unused_rows fk S mid db1 r2 Hmid In2 S2).
    apply unexpired_true in U2. tauto. }
  assert (Hsame : c_code r2 = code1 /\ c_expiresAt r2 = exp1).
  { subst db1. unfold requestCode in Hfirst, In1.
    destruct (existing_code db0 (Some S) (now e1)) as [r0|] eqn:E0.
    - simpl in Hfirst, In1. inversion Hfirst; subst.
      apply existing_code_some in E0. destruct E0 as (In0 & S0 & U0).
      assert (r2 = r0).
      { apply (Hinv0 r2 r0 S); auto. now apply (unexpired_earlier (now e1) (now e2)). }
      subst r2. auto.
    - cbv zeta in Hfirst, In1.
      destruct (code_insertable fk db0 _); simpl in Hfirst, In1; [|discriminate].
      inversion Hfirst; subst. apply in_app_or in In1.
      destruct In1 as [In1|[<-|[]]]; [|auto].
      exfalso. apply (unexpired_earlier (now e1) (now e2)) in U2; [|exact H12].
      rewrite (existing_code_none db0 S (now e1) r2 E0 In1 S2) in U2. discriminate. }
  unfold requestCode. rewrite E2. destruct Hsame as [-> ->]. reflexivity.
Qed.

Lemma requestCode_idempotent_witness :
  let db2 := exec true empty_db demo_reject in
  requestCode true db2 (demo_env 400 "c2") (Some "s1")
  = (db2, Respond 200 (CodeBody "STU-AAAAAA" demo_expiry)).
Proof.
  intros db2.
  apply (requestCode_idempotent true "s1" 0
           [ (demo_env 0 "", UsersWrite demo_users) ]
           (demo_env 100 "c1")
           [ (demo_env 200 "r1", RedeemCode (Some "p1") (Some "STU-AAAAAA"));
             (demo_env 300 "", Decide "r1" (Some "rejected")) ]
           (demo_env 400 "c2") "STU-AAAAAA" demo_expiry).
  - simpl. lia.
  - reflexivity.
  - reflexivity.
  - exists (mkCode "c1" (Some "s1") "STU-AAAAAA" demo_expiry 0).
    split; [vm_compute; now left|]. split; [reflexivity|]. split; [reflexivity|].
    vm_compute. reflexivity.
Defined.

Lemma references_user_spec us S :
  references_user us (Some S) = true <-> exists u, In u us /\ u_id u = S.
Proof.
  simpl. rewrite existsb_exists. split; intros (u & Hu & E); exists u; split; auto.
  - now apply String.eqb_eq.
  - now apply String.eqb_eq.
Qed.

Lemma existsb_eqb_false {A} (f : A -> string) (l : list A) (k : string) :
  existsb (fun x => String.eqb (f x) k) l = false <-> forall x, In x l -> f x <> k.
Proof.
  rewrite existsb_false. split; intros H x Hx; specialize (H x Hx).
  - now apply String.eqb_neq.
  - now apply String.eqb_neq.
Qed.

(** The three checks of [INSERT INTO linking_codes], spelled out. *)
Lemma code_insertable_spec fk db id S code t u :
  code_insertable fk db (mkCode id (Some S) code t u) = true <->
  (forall r, In r (linking_codes db) -> c_code r <> code)
  /\ (forall r, In r (linking_codes db) -> c_id r <> id)
  /\ (fk = true -> exists x, In x (users db) /\ u_id x = S).
Proof.
  unfold code_insertable. cbn [c_id c_code c_studentId].
  rewrite !andb_true_iff, !negb_true_iff, !existsb_eqb_false, orb_true_iff.
  rewrite negb_true_iff, references_user_spec.
  split.
  - intros [[H1 H2] H3]. repeat split; auto.
    intros ->. destruct H3 as [H3|H3]; [discriminate|exact H3].
  - intros (H1 & H2 & H3). repeat split; auto.
    destruct fk; [right; now apply H3 | now left].
Qed.

Lemma no_active_row_none db S t :
  (forall r, In r (linking_codes db) -> c_studentId r = Some S ->
             ~ (c_used r = 0 /\ t < c_expiresAt r)) ->
  existing_code db (Some S) t = None.
Proof.
  intros H. apply find_none_iff. intros r Hr.
  destruct (sql_eq (c_studentId r) (Some S)) eqn:E; [|reflexivity].
  apply sql_eq_some in E. simpl.
  destruct (unexpired t r) eqn:U; [|reflexivity].
  apply unexpired_true in U. destruct (H r Hr E U).
Qed.

(** C9 (amended): when student [S] has no unused, unexpired row,
    [requestCode(S)] generates one code.  Whenever it answers with a code,
    that code is the generated one, it differs from the code of every
    stored row (those of [S] included), [expiresAt] is the clock plus 24
    hours, and the row ([S], code, [expiresAt], unused) has been appended.
    It does so when no stored row has the generated code or the generated
    row id (and [S] is a user, where foreign keys are enforced); when a
    stored row has the generated code, nothing is stored and no code is
    returned. *)
Theorem requestCode_issues_new_code fk db e S :
  (forall r, In r (linking_codes db) -> c_studentId r = Some S ->
             ~ (c_used r = 0 /\ now e < c_expiresAt r)) ->
  let newCode := generateLinkingCode (random e) in
  let expiresAt := now2 e + 86400000 in
  let db' := mkDB (users db)
                  (linking_codes db ++ [mkCode (rowid e) (Some S) newCode expiresAt 0])
                  (parent_student_links db) in
  (forall c x,
      snd (requestCode fk db e (Some S)) = Respond 200 (CodeBody c x) ->
      c = newCode /\ x = expiresAt
      /\ fst (requestCode fk db e (Some S)) = db'
      /\ (forall r, In r (linking_codes db) -> c_code r <> c))
  /\ ((forall r, In r (linking_codes db) -> c_code r <> newCode) ->
      (forall r, In r (linking_codes db) -> c_id r <> rowid e) ->
      (fk = true -> exists u, In u (users db) /\ u_id u = S) ->
      requestCode fk db e (Some S) = (db', Respond 200 (CodeBody newCode expiresAt)))
  /\ ((exists r, In r (linking_codes db) /\ c_code r = newCode) ->
      requestCode fk db e (Some S) = (db, Throw SqliteConstraint)).
Proof.
  intros Hnone newCode expiresAt db'. apply no_active_row_none in Hnone.
  unfold requestCode. rewrite Hnone. cbv zeta. fold newCode.
  change (now2 e + day_ms) with expiresAt.
  pose proof (code_insertable_spec fk db (rowid e) S newCode expiresAt 0) as Hspec.
  destruct (code_insertable fk db _).
  - destruct (proj1 Hspec eq_refl) as (H1 & H2 & H3). split; [|split].
    + simpl. intros c x Heq. inversion Heq; subst c x. repeat split. exact H1.
    + reflexivity.
    + intros (r & Hr & Hc). destruct (H1 r Hr Hc).
  - split; [|split].
    + simpl. discriminate.
    + intros H1 H2 H3. assert (false = true) by (apply Hspec; auto). discriminate.
    + reflexivity.
Qed.

(** C7 (amended): a call makes one generation attempt.  When the generated
    code is already stored, the INSERT is refused, the table is left as it
    was and the call ends without a code; the call issues a code exactly
    when that one generated code and the row id are not stored (and the
    student is a user, where foreign keys are enforced). *)
Theorem requestCode_single_attempt fk db e S :
  existing_code db (Some S) (now e) = None ->
  let newCode := generateLinkingCode (random e) in
  ((exists r, In r (linking_codes db) /\ c_code r = newCode) ->
   fst (requestCode fk db e (Some S)) = db
   /\ forall c x, snd (requestCode fk db e (Some S)) <> Respond 200 (CodeBody c x))
  /\ ((exists c x, snd (requestCode fk db e (Some S)) = Respond 200 (CodeBody c x))
      <-> (forall r, In r (linking_codes db) -> c_code r <> newCode)
          /\ (forall r, In r (linking_codes db) -> c_id r <> rowid e)
          /\ (fk = true -> exists u, In u (users db) /\ u_id u = S)).
Proof.
  intros Hnone newCode. unfold requestCode. rewrite Hnone. cbv zeta. fold newCode.
  rewrite <- (code_insertable_spec fk db (rowid e) S newCode (now2 e + day_ms) 0).
  destruct (code_insertable fk db _) eqn:E.
  - split.
    + intros (r & Hr & Hc). apply code_insertable_spec in E.
      destruct E as (H1 & _). destruct (H1 r Hr Hc).
    + split; [reflexivity|]. intros _. simpl. eauto.
  - split.
    + intros _. split; [reflexivity|]. simpl. discriminate.
    + split; [|discriminate]. simpl. intros (c & x & H). discriminate.
Qed.

Lemma requestCode_issues_new_code_witness :
  let db := exec true empty_db demo_issue in
  let e := mkEnv demo_expiry (demo_expiry + 5) (fun _ => (1 # 2)%Q) "c2" in
  requestCode true db e (Some "s1")
  = (mkDB demo_users
          [ mkCode "c1" (Some "s1") "STU-AAAAAA" demo_expiry 0;
            mkCode "c2" (Some "s1") "STU-SSSSSS" (demo_expiry + 5 + 86400000) 0 ]
          [],
     Respond 200 (CodeBody "STU-SSSSSS" (demo_expiry + 5 + 86400000))).
Proof.
  intros db e.
  destruct (requestCode_issues_new_code true db e "s1") as (_ & H & _).
  - intros r [<-|[]] _ [_ Ht]. vm_compute in Ht. discriminate.
  - apply H.
    + intros r [<-|[]]. vm_compute. discriminate.
    + intros r [<-|[]]. vm_compute. discriminate.
    + intros _. exists (mkUser "s1" (Some "Sara") (Some "sara@example.org")).
      split; [now left|reflexivity].
Defined.

(** C9, as stated, fails: the student's only code has expired, the six
    draws give that same code again, and the call stores and returns
    nothing. *)
Lemma requestCode_new_code_counterexample :
  let db := exec true empty_db demo_issue in
  let e := mkEnv demo_expiry demo_expiry zeros "c2" in
  (forall r, In r (linking_codes db) -> c_studentId r = Some "s1" ->
             ~ (c_used r = 0 /\ now e < c_expiresAt r))
  /\ generateLinkingCode (random e) = "STU-AAAAAA"
  /\ requestCode true db e (Some "s1") = (db, Throw SqliteConstraint).
Proof.
  intros db e. split; [|split; reflexivity].
  intros r [<-|[]] _ [_ Ht]. vm_compute in Ht. discriminate.
Qed.

Lemma requestCode_single_attempt_witness :
  let db := exec true empty_db demo_issue in
  let e := mkEnv demo_expiry demo_expiry retry_rng "c2" in
  fst (requestCode true db e (Some "s1")) = db
  /\ forall c x, snd (requestCode true db e (Some "s1")) <> Respond 200 (CodeBody c x).
Proof.
  intros db e.
  destruct (requestCode_single_attempt true db e "s1") as [H _]; [reflexivity|].
  apply H. exists (mkCode "c1" (Some "s1") "STU-AAAAAA" demo_expiry 0).
  split; [now left|reflexivity].
Defined.

(** C7, as stated, fails: the first attempt collides, a second attempt
    would give a code that is not stored, and the call fails all the
    same. *)
Lemma requestCode_retry_counterexample :
  let db := exec true empty_db demo_issue in
  let e := mkEnv demo_expiry demo_expiry retry_rng "c2" in
  existing_code db (Some "s1") (now e) = None
  /\ attempt (random e) 0 = "STU-AAAAAA"
  /\ attempt (random e) 1 = "STU-SSSSSS"
  /\ (1 < 3)%nat
  /\ (forall r, In r (linking_codes db) -> c_code r <> attempt (random e) 1)
  /\ requestCode true db e (Some "s1") = (db, Throw SqliteConstraint).
Proof.
  intros db e. repeat split; try reflexivity; [lia|].
  intros r [<-|[]]. vm_compute. discriminate.
Qed.

(** ** The status of a request *)

(** C4, as stated, fails: an approved request is rejected by a second
    decision, and a third one puts it back to pending. *)
Lemma status_transition_counterexample :
  let db := exec true empty_db demo_approve in
  map l_status (parent_student_links db) = [Some "approved"]
  /\ map l_status (parent_student_links (fst (decide db "r1" (Some "rejected"))))
     = [Some "rejected"]
  /\ map l_status (parent_student_links (fst (decide db "r1" (Some "pending"))))
     = [Some "pending"].
Proof. repeat split. Qed.

(** C4 (amended): a request is created with status pending; [decide] writes
    the submitted status into every row with the given id, whatever the
    status it had, and keeps the other rows; no other request changes or
    removes a row of [parent_student_links]. *)
Theorem status_written_by_decide_only fk db e :
  (forall id st l, In l (parent_student_links db) -> l_id l = id ->
      In (set_status st l) (parent_student_links (fst (decide db id st))))
  /\ (forall id st l, In l (parent_student_links db) -> l_id l <> id ->
      In l (parent_student_links (fst (decide db id st))))
  /\ (forall r l, is_decide r = false -> In l (parent_student_links db) ->
      In l (parent_student_links (fst (handle fk db e r))))
  /\ (forall r l, In l (parent_student_links (fst (handle fk db e r))) ->
      is_decide r = false ->
      In l (parent_student_links db) \/ l_status l = Some "pending").
Proof.
  repeat split.
  - intros id st l Hl Hid. rewrite decide_links.
    apply (in_map (fun l => if String.eqb (l_id l) id then set_status st l else l)) in Hl.
    apply String.eqb_eq in Hid. now rewrite Hid in Hl.
  - intros id st l Hl Hid. rewrite decide_links.
    apply (in_map (fun l => if String.eqb (l_id l) id then set_status st l else l)) in Hl.
    apply String.eqb_neq in Hid. now rewrite Hid in Hl.
  - intros r l Hr Hl. destruct r as [s|p c|s|id st|us]; simpl in *; try exact Hl.
    + now rewrite requestCode_links.
    + unfold redeemCode. destruct (valid_code _ _ _); [|exact Hl].
      cbv zeta. destruct (link_insertable _ _ _); [|exact Hl].
      simpl. apply in_or_app. now left.
    + discriminate.
  - intros r l Hl Hr. destruct r as [s|p c|s|id st|us]; simpl in *; auto.
    + rewrite requestCode_links in Hl. now left.
    + unfold redeemCode in Hl. destruct (valid_code _ _ _); [|now left].
      cbv zeta in Hl. destruct (link_insertable _ _ _); [|now left].
      simpl in Hl. apply in_app_or in Hl. destruct Hl as [Hl|[<-|[]]]; auto.
    + discriminate.
Qed.

Lemma status_written_by_decide_only_witness :
  let db := exec true empty_db demo_approve in
  In (mkLink "r1" (Some "p1") (Some "s1") (Some "rejected") 200)
     (parent_student_links (fst (decide db "r1" (Some "rejected")))).
Proof.
  intros db.
  destruct (status_written_by_decide_only true db (demo_env 400 "")) as (H & _).
  apply (H "r1" (Some "rejected")
           (mkLink "r1" (Some "p1") (Some "s1") (Some "approved") 200)).
  - vm_compute. now left.
  - reflexivity.
Defined.

(** * Further properties of the linking code *)

(** ** The generated code *)

Lemma pick_range (r : Q) :
  (0 <= r)%Q -> (r < 1)%Q -> 0 <= pick r < 32.
Proof.
  intros H0 H1. unfold pick.
  change (inject_Z (Z.of_nat (String.length chars))) with (inject_Z 32).
  split.
  - rewrite <- (Qfloor_Z 0). apply Qfloor_resp_le.
    apply Qmult_le_0_compat; [exact H0|discriminate].
  - rewrite Zlt_Qlt. apply Qle_lt_trans with (y := (r * inject_Z 32)%Q).
    + apply Qfloor_le.
    + setoid_replace (inject_Z 32) with (1 * inject_Z 32)%Q at 2 by ring.
      apply Qmult_lt_compat_r; [reflexivity|exact H1].
Qed.

Lemma pick_draw (i : Z) : pick (i # 32) = i.
Proof.
  unfold pick.
  change (inject_Z (Z.of_nat (String.length chars))) with (inject_Z 32).
  unfold Qfloor, Qmult, inject_Z. simpl Qnum. simpl Qden.
  change (Z.pos (32 * 1)) with 32. apply Z.div_mul. discriminate.
Qed.

Lemma get_in_range (s : string) : forall n,
  (n < String.length s)%nat ->
  exists a, String.get n s = Some a /\ In a (list_ascii_of_string s).
Proof.
  induction s as [|c s IH]; simpl; intros n Hn; [lia|].
  destruct n as [|n].
  - exists c. auto.
  - destruct (IH n) as (a & Ha & Hin); [lia|]. exists a. auto.
Qed.

Lemma charAt_in_range (s : string) (i : Z) :
  0 <= i < Z.of_nat (String.length s) ->
  exists a, charAt s i = String a EmptyString /\ In a (list_ascii_of_string s).
Proof.
  intros Hi. unfold charAt.
  destruct (Z.ltb_spec i 0) as [H|H]; [lia|].
  destruct (get_in_range s (Z.to_nat i)) as (a & Ha & Hin); [lia|].
  exists a. now rewrite Ha.
Qed.

Lemma in_alphabet_spec (a : ascii) :
  in_alphabet a = true <-> In a (list_ascii_of_string chars).
Proof.
  unfold in_alphabet. rewrite existsb_exists. split.
  - intros (x & Hx & E). apply Ascii.eqb_eq in E. now subst.
  - intros H. exists a. split; [exact H|apply Ascii.eqb_refl].
Qed.

Lemma letter_of_draw (r : Q) :
  (0 <= r)%Q /\ (r < 1)%Q ->
  exists a, charAt chars (pick r) = String a EmptyString /\ in_alphabet a = true.
Proof.
  intros [H0 H1]. destruct (charAt_in_range chars (pick r)) as (a & Ha & Hin).
  - change (Z.of_nat (String.length chars)) with 32. now apply pick_range.
  - exists a. split; [exact Ha|]. now apply in_alphabet_spec.
Qed.

(** X1: with six draws in [[0,1)], the generated code is ["STU-"] followed
    by six characters of the alphabet, ten characters in all, and none of
    the six is a zero, a capital O, a one or a capital I. *)
Theorem generated_code_shape (g : rng) :
  draws_in_range g ->
  well_formed_code (generateLinkingCode g) = true
  /\ String.length (generateLinkingCode g) = 10%nat
  /\ (forall a, In a (list_ascii_of_string (String.substring 4 6 (generateLinkingCode g))) ->
        In a (list_ascii_of_string chars)
        /\ a <> "0"%char /\ a <> "O"%char /\ a <> "1"%char /\ a <> "I"%char).
Proof.
  intros Hg.
  destruct (letter_of_draw (g 0%nat) (Hg 0%nat ltac:(lia))) as (a0 & E0 & A0).
  destruct (letter_of_draw (g 1%nat) (Hg 1%nat ltac:(lia))) as (a1 & E1 & A1).
  destruct (letter_of_draw (g 2%nat) (Hg 2%nat ltac:(lia))) as (a2 & E2 & A2).
  destruct (letter_of_draw (g 3%nat) (Hg 3%nat ltac:(lia))) as (a3 & E3 & A3).
  destruct (letter_of_draw (g 4%nat) (Hg 4%nat ltac:(lia))) as (a4 & E4 & A4).
  destruct (letter_of_draw (g 5%nat) (Hg 5%nat ltac:(lia))) as (a5 & E5 & A5).
  assert (Hcode : generateLinkingCode g
                  = String "S" (String "T" (String "U" (String "-"
                      (String a0 (String a1 (String a2 (String a3 (String a4
                         (String a5 EmptyString)))))))))).
  { unfold generateLinkingCode, code_loop. rewrite E0, E1, E2, E3, E4, E5. reflexivity. }
  rewrite Hcode. split; [|split].
  - unfold well_formed_code. cbn -[in_alphabet].
    now rewrite A0, A1, A2, A3, A4, A5.
  - reflexivity.
  - intros a Ha. cbn in Ha.
    assert (Hin : in_alphabet a = true)
      by (destruct Ha as [<-|[<-|[<-|[<-|[<-|[<-|[]]]]]]]; assumption).
    split; [now apply in_alphabet_spec|].
    repeat split; intros ->; vm_compute in Hin; discriminate.
Qed.

Lemma get_chars_inj : forall n m,
  (n < 32)%nat -> (m < 32)%nat ->
  String.get n chars = String.get m chars -> n = m.
Proof.
  intros n m Hn Hm. revert Hm.
  do 32 (destruct n as [|n];
         [ do 32 (destruct m as [|m];
                  [ intros _ H; first [reflexivity | (vm_compute in H; discriminate)] |]);
           intros Hm; lia |]).
  lia.
Qed.

Lemma charAt_chars_inj (i j : Z) :
  index_in_range i -> index_in_range j ->
  charAt chars i = charAt chars j -> i = j.
Proof.
  unfold index_in_range. intros Hi Hj H.
  assert (E : String.get (Z.to_nat i) chars = String.get (Z.to_nat j) chars).
  { unfold charAt in H.
    destruct (Z.ltb_spec i 0); [lia|]. destruct (Z.ltb_spec j 0); [lia|].
    destruct (get_in_range chars (Z.to_nat i)) as (a & Ha & _);
      [change (String.length chars) with 32%nat; lia|].
    destruct (get_in_range chars (Z.to_nat j)) as (b & Hb & _);
      [change (String.length chars) with 32%nat; lia|].
    rewrite Ha, Hb in *. congruence. }
  apply get_chars_inj in E; lia.
Qed.

Lemma draw_in_unit (i : Z) :
  index_in_range i -> (0 <= i # 32)%Q /\ (i # 32 < 1)%Q.
Proof.
  unfold index_in_range, Qle, Qlt. simpl. lia.
Qed.

(** X2: every choice of six alphabet positions is reached: the draws
    [i/32] are in [[0,1)] and give ["STU-"] followed by the characters at
    those positions; and two choices that give the same code are the same
    choice, so the generator has 32^6 distinct codes. *)
Theorem generated_code_round_trip (idx idx' : list Z) :
  List.length idx = 6%nat -> Forall index_in_range idx ->
  List.length idx' = 6%nat -> Forall index_in_range idx' ->
  draws_in_range (draws_for idx)
  /\ generateLinkingCode (draws_for idx)
     = ("STU-" ++ String.concat "" (map (charAt chars) idx))%string
  /\ (generateLinkingCode (draws_for idx) = generateLinkingCode (draws_for idx') ->
      idx = idx').
Proof.
  intros L F L' F'.
  assert (Hcode : forall l, List.length l = 6%nat -> Forall index_in_range l ->
            exists a0 a1 a2 a3 a4 a5,
              map (charAt chars) l
              = [String a0 ""; String a1 ""; String a2 ""; String a3 "";
                 String a4 ""; String a5 ""]
              /\ generateLinkingCode (draws_for l)
                 = String "S" (String "T" (String "U" (String "-"
                     (String a0 (String a1 (String a2 (String a3 (String a4
                        (String a5 EmptyString)))))))))).
  { intros l Hl Hf.
    destruct l as [|i0 [|i1 [|i2 [|i3 [|i4 [|i5 [|? ?]]]]]]]; try discriminate.
    repeat match goal with H : Forall _ (_ :: _) |- _ => inversion H; clear H; subst end.
    unfold index_in_range in *.
    destruct (charAt_in_range chars i0) as (a0 & E0 & _); [assumption|].
    destruct (charAt_in_range chars i1) as (a1 & E1 & _); [assumption|].
    destruct (charAt_in_range chars i2) as (a2 & E2 & _); [assumption|].
    destruct (charAt_in_range chars i3) as (a3 & E3 & _); [assumption|].
    destruct (charAt_in_range chars i4) as (a4 & E4 & _); [assumption|].
    destruct (charAt_in_range chars i5) as (a5 & E5 & _); [assumption|].
    exists a0, a1, a2, a3, a4, a5. split.
    - simpl. now rewrite E0, E1, E2, E3, E4, E5.
    - unfold generateLinkingCode, code_loop, draws_for. simpl nth.
      rewrite !pick_draw, E0, E1, E2, E3, E4, E5. reflexivity. }
  split; [|split].
  - intros i Hi. unfold draws_for. apply draw_in_unit.
    destruct (nth_in_or_default i idx 0) as [Hin | Hd].
    + rewrite Forall_forall in F. now apply F.
    + rewrite Hd. unfold index_in_range. lia.
  - destruct (Hcode idx L F) as (a0 & a1 & a2 & a3 & a4 & a5 & Em & Eg).
    rewrite Eg, Em. reflexivity.
  - intros Heq.
    destruct (Hcode idx L F) as (a0 & a1 & a2 & a3 & a4 & a5 & Em & Eg).
    destruct (Hcode idx' L' F') as (b0 & b1 & b2 & b3 & b4 & b5 & Em' & Eg').
    rewrite Eg, Eg' in Heq. inversion Heq; subst.
    rewrite <- Em' in Em. clear - Em F F'.
    revert idx' F' Em. induction F as [|i l Hi Hl IH]; intros [|j l'] F' Em;
      try discriminate; [reflexivity|].
    inversion F'; subst. simpl in Em. inversion Em as [[E1 E2]].
    f_equal; [now apply charAt_chars_inj|now apply IH].
Qed.

(** ** What the tables keep along any run *)

Lemma decide_codes_shape db id st :
  linking_codes (fst (decide db id st)) = linking_codes db
  \/ exists s, linking_codes (fst (decide db id st))
               = map (fun r => if sql_eq (c_studentId r) s then set_used r else r)
                     (linking_codes db).
Proof.
  unfold decide. destruct (is_approved st); [|now left].
  destruct (find _ _) as [l|]; [|now left]. right. now exists (l_studentId l).
Qed.

Lemma requestCode_codes_shape fk db e s :
  linking_codes (fst (requestCode fk db e s)) = linking_codes db
  \/ (code_insertable fk db
        (mkCode (rowid e) s (generateLinkingCode (random e)) (now2 e + day_ms) 0) = true
      /\ existing_code db s (now e) = None
      /\ linking_codes (fst (requestCode fk db e s))
         = linking_codes db
           ++ [mkCode (rowid e) s (generateLinkingCode (random e)) (now2 e + day_ms) 0]).
Proof.
  unfold requestCode. destruct (existing_code db s (now e)); [now left|].
  cbv zeta. destruct (code_insertable fk db _) eqn:E; [|now left].
  right. auto.
Qed.

Lemma handle_codes_keyed fk db e q :
  NoDup (map c_id (linking_codes db))
  /\ (forall r, In r (linking_codes db) -> c_used r = 0 \/ c_used r = 1) ->
  NoDup (map c_id (linking_codes (fst (handle fk db e q))))
  /\ (forall r, In r (linking_codes (fst (handle fk db e q))) ->
                c_used r = 0 \/ c_used r = 1).
Proof.
  intros [Hid Hbit]. destruct q as [s|p c|s|id st|us]; simpl; auto.
  - destruct (requestCode_codes_shape fk db e s) as [->|(Hins & _ & ->)]; [auto|].
    apply code_insertable_fresh in Hins. destruct Hins as [Hfresh _]. split.
    + rewrite map_app. simpl. now apply NoDup_app_one.
    + intros r Hr. apply in_app_or in Hr. destruct Hr as [Hr|[<-|[]]]; auto.
  - rewrite redeemCode_codes. auto.
  - destruct (decide_codes_shape db id st) as [->|(s & ->)]; [auto|]. split.
    + rewrite map_map.
      replace (map (fun r => c_id (if sql_eq (c_studentId r) s then set_used r else r))
                   (linking_codes db))
        with (map c_id (linking_codes db)); [exact Hid|].
      apply map_ext. intros r. destruct (sql_eq (c_studentId r) s); reflexivity.
    + intros r Hr. apply in_map_iff in Hr. destruct Hr as (r0 & <- & Hr0).
      destruct (sql_eq (c_studentId r0) s); [now right|auto].
Qed.

Lemma exec_codes_keyed fk tr : forall db,
  NoDup (map c_id (linking_codes db))
  /\ (forall r, In r (linking_codes db) -> c_used r = 0 \/ c_used r = 1) ->
  NoDup (map c_id (linking_codes (exec fk db tr)))
  /\ (forall r, In r (linking_codes (exec fk db tr)) -> c_used r = 0 \/ c_used r = 1).
Proof.
  induction tr as [|[e q] tr IH]; intros db H; simpl; [exact H|].
  apply IH. now apply handle_codes_keyed.
Qed.

(** X4: in every database the server can reach, no two [linking_codes]
    rows share an id or a code, no two [parent_student_links] rows share
    an id, and [used] is 0 or 1. *)
Theorem reachable_tables_keyed fk tr :
  let db := exec fk empty_db tr in
  NoDup (map c_id (linking_codes db))
  /\ NoDup (map c_code (linking_codes db))
  /\ NoDup (map l_id (parent_student_links db))
  /\ (forall r, In r (linking_codes db) -> c_used r = 0 \/ c_used r = 1).
Proof.
  intros db.
  destruct (exec_codes_keyed fk tr empty_db) as [H1 H2].
  { split; [constructor|intros r []]. }
  destruct (exec_schema_ok fk tr empty_db) as [H3 H4].
  { split; constructor. }
  auto.
Qed.

Lemma handle_code_kept fk db e q r :
  In r (linking_codes db) ->
  exists r', In r' (linking_codes (fst (handle fk db e q)))
             /\ c_id r' = c_id r /\ c_studentId r' = c_studentId r
             /\ c_code r' = c_code r /\ c_expiresAt r' = c_expiresAt r
             /\ (c_used r' = c_used r \/ c_used r' = 1).
Proof.
  intros Hr.
  assert (Hsame : linking_codes (fst (handle fk db e q)) = linking_codes db ->
                  exists r', In r' (linking_codes (fst (handle fk db e q)))
             /\ c_id r' = c_id r /\ c_studentId r' = c_studentId r
             /\ c_code r' = c_code r /\ c_expiresAt r' = c_expiresAt r
             /\ (c_used r' = c_used r \/ c_used r' = 1)).
  { intros ->. exists r. auto 10. }
  destruct q as [s|p c|s|id st|us]; simpl in *; auto.
  - destruct (requestCode_codes_shape fk db e s) as [E|(_ & _ & E)]; [auto|].
    rewrite E. exists r. split; [apply in_or_app; now left|auto 10].
  - apply Hsame. apply redeemCode_codes.
  - destruct (decide_codes_shape db id st) as [E|(s & E)]; [auto|].
    rewrite E. exists (if sql_eq (c_studentId r) s then set_used r else r). split.
    + now apply (in_map (fun r => if sql_eq (c_studentId r) s then set_used r else r)).
    + destruct (sql_eq (c_studentId r) s); simpl; auto 10.
Qed.

Lemma handle_codes_length fk db e q :
  (List.length (linking_codes db)
   <= List.length (linking_codes (fst (handle fk db e q))))%nat.
Proof.
  destruct q as [s|p c|s|id st|us]; simpl; auto.
  - destruct (requestCode_codes_shape fk db e s) as [->|(_ & _ & ->)]; [auto|].
    rewrite length_app. lia.
  - now rewrite redeemCode_codes.
  - destruct (decide_codes_shape db id st) as [->|(s & ->)]; [auto|].
    now rewrite length_map.
Qed.

(** X5: no request removes or rewrites a code row: after any run the table
    is at least as long, and every earlier row is still there with its id,
    student, code and expiry; its [used] flag is what it was or 1. *)
Theorem code_rows_are_kept fk tr : forall db r,
  In r (linking_codes db) ->
  (List.length (linking_codes db) <= List.length (linking_codes (exec fk db tr)))%nat
  /\ exists r', In r' (linking_codes (exec fk db tr))
             /\ c_id r' = c_id r /\ c_studentId r' = c_studentId r
             /\ c_code r' = c_code r /\ c_expiresAt r' = c_expiresAt r
             /\ (c_used r' = c_used r \/ c_used r' = 1).
Proof.
  induction tr as [|[e q] tr IH]; intros db r Hr; simpl.
  - split; [lia|]. exists r. auto 10.
  - destruct (handle_code_kept fk db e q r Hr) as (r1 & H1 & A & B & C & D & U).
    destruct (IH _ r1 H1) as (L & r2 & H2 & A' & B' & C' & D' & U').
    split; [pose proof (handle_codes_length fk db e q); lia|].
    exists r2. repeat split; try congruence.
    destruct U' as [U'|U']; [|now right]. rewrite U'. exact U.
Qed.

Lemma redeemCode_links_shape fk db e p c :
  parent_student_links (fst (redeemCode fk db e p c)) = parent_student_links db
  \/ exists cd,
       valid_code db c (now e) = Some cd
       /\ link_insertable fk db
            (mkLink (rowid e) p (c_studentId cd) (Some "pending") (now2 e)) = true
       /\ parent_student_links (fst (redeemCode fk db e p c))
          = parent_student_links db
            ++ [mkLink (rowid e) p (c_studentId cd) (Some "pending") (now2 e)].
Proof.
  unfold redeemCode. destruct (valid_code db c (now e)) as [cd|]; [|now left].
  cbv zeta. destruct (link_insertable fk db _) eqn:E; [|now left].
  right. exists cd. auto.
Qed.

Lemma handle_link_kept fk db e q l :
  In l (parent_student_links db) ->
  exists l', In l' (parent_student_links (fst (handle fk db e q)))
             /\ l_id l' = l_id l /\ l_parentId l' = l_parentId l
             /\ l_studentId l' = l_studentId l /\ l_createdAt l' = l_createdAt l.
Proof.
  intros Hl. destruct q as [s|p c|s|id st|us]; simpl.
  - rewrite requestCode_links. exists l. auto.
  - destruct (redeemCode_links_shape fk db e p c) as [->|(cd & _ & _ & ->)].
    + exists l. auto.
    + exists l. split; [apply in_or_app; now left|auto].
  - exists l. auto.
  - rewrite decide_links.
    exists (if String.eqb (l_id l) id then set_status st l else l). split.
    + now apply (in_map (fun l => if String.eqb (l_id l) id then set_status st l else l)).
    + destruct (String.eqb (l_id l) id); simpl; auto.
  - exists l. auto.
Qed.

(** X6: no request removes a link request or changes whom it is about:
    after any run every earlier row is still there with its id, parent,
    student and creation instant. *)
Theorem link_rows_are_kept fk tr : forall db l,
  In l (parent_student_links db) ->
  exists l', In l' (parent_student_links (exec fk db tr))
             /\ l_id l' = l_id l /\ l_parentId l' = l_parentId l
             /\ l_studentId l' = l_studentId l /\ l_createdAt l' = l_createdAt l.
Proof.
  induction tr as [|[e q] tr IH]; intros db l Hl; simpl.
  - exists l. auto.
  - destruct (handle_link_kept fk db e q l Hl) as (l1 & H1 & A & B & C & D).
    destruct (IH _ l1 H1) as (l2 & H2 & A' & B' & C' & D').
    exists l2. repeat split; congruence.
Qed.

(** ** The validity window *)

Lemma handle_expiry_bound fk db e q t :
  t <= now e -> now e <= now2 e ->
  (forall r, In r (linking_codes db) -> c_expiresAt r <= t + day_ms) ->
  forall r, In r (linking_codes (fst (handle fk db e q))) ->
            c_expiresAt r <= now2 e + day_ms.
Proof.
  intros H1 H2 Hb.
  assert (Hold : forall r, In r (linking_codes db) -> c_expiresAt r <= now2 e + day_ms).
  { intros r Hr. specialize (Hb r Hr). lia. }
  destruct q as [s|p c|s|id st|us]; simpl; auto.
  - destruct (requestCode_codes_shape fk db e s) as [->|(_ & _ & ->)]; [auto|].
    intros r Hr. apply in_app_or in Hr. destruct Hr as [Hr|[<-|[]]]; [auto|].
    simpl. lia.
  - now rewrite redeemCode_codes.
  - destruct (decide_codes_shape db id st) as [->|(s & ->)]; [auto|].
    intros r Hr. apply in_map_iff in Hr. destruct Hr as (r0 & <- & Hr0).
    specialize (Hold r0 Hr0). destruct (sql_eq (c_studentId r0) s); exact Hold.
Qed.

Lemma exec_expiry_bound fk tr : forall db t,
  clock_ok t tr ->
  (forall r, In r (linking_codes db) -> c_expiresAt r <= t + day_ms) ->
  forall r, In r (linking_codes (exec fk db tr)) ->
            c_expiresAt r <= clock_end t tr + day_ms.
Proof.
  induction tr as [|[e q] tr IH]; intros db t Hc Hb; simpl; [exact Hb|].
  destruct Hc as (H1 & H2 & Hc). apply (IH _ _ Hc).
  now apply (handle_expiry_bound fk db e q t).
Qed.

(** X8: with a clock that never goes back, every stored code expires at
    most 24 hours after the last clock reading; from that instant on every
    redemption is answered 400 with the invalid-or-expired message. *)
Theorem codes_expire_within_a_day fk t tr :
  clock_ok t tr ->
  let db := exec fk empty_db tr in
  (forall r, In r (linking_codes db) -> c_expiresAt r <= clock_end t tr + 86400000)
  /\ (forall e p code,
        clock_end t tr + 86400000 <= now e ->
        redeemCode fk db e p code
        = (db, Respond 400 (MessageBody false msg_invalid_code))).
Proof.
  intros Hc db.
  assert (Hb : forall r, In r (linking_codes db) ->
                         c_expiresAt r <= clock_end t tr + 86400000).
  { apply (exec_expiry_bound fk tr empty_db t Hc). intros r []. }
  split; [exact Hb|].
  intros e p code Hlate. apply redeemCode_no_valid.
  apply find_none_iff. intros r Hr. specialize (Hb r Hr).
  apply andb_false_iff. right. unfold unexpired. apply andb_false_iff. right.
  apply Z.ltb_ge. lia.
Qed.

(** X7: with a clock that never goes back, a student has at most one
    unused code that is unexpired now or at any later instant. *)
Theorem one_active_code_per_student fk t tr t' :
  clock_ok t tr -> clock_end t tr <= t' ->
  forall S r1 r2,
    In r1 (linking_codes (exec fk empty_db tr)) ->
    In r2 (linking_codes (exec fk empty_db tr)) ->
    c_studentId r1 = Some S -> c_studentId r2 = Some S ->
    c_used r1 = 0 -> c_used r2 = 0 ->
    t' < c_expiresAt r1 -> t' < c_expiresAt r2 ->
    r1 = r2.
Proof.
  intros Hc Hle S r1 r2 In1 In2 S1 S2 U1 U2 E1 E2.
  assert (Hinv : one_active_code (exec fk empty_db tr) t').
  { apply (one_active_code_later _ (clock_end t tr)); [exact Hle|].
    apply exec_one_active; [exact Hc|]. intros ? ? ? []. }
  apply (Hinv r1 r2 S); auto; apply unexpired_true; auto.
Qed.

(** ** Approval is the student's act *)

Lemma handle_approved_origin fk db e q l :
  In l (parent_student_links (fst (handle fk db e q))) ->
  l_status l = Some "approved" ->
  (exists l0, In l0 (parent_student_links db)
              /\ l_id l0 = l_id l /\ l_status l0 = Some "approved")
  \/ q = Decide (l_id l) (Some "approved").
Proof.
  intros Hl Hst. destruct q as [s|p c|s|id st|us]; simpl in Hl.
  - rewrite requestCode_links in Hl. left. exists l. auto.
  - destruct (redeemCode_links_shape fk db e p c) as [E|(cd & _ & _ & E)];
      rewrite E in Hl.
    + left. exists l. auto.
    + apply in_app_or in Hl. destruct Hl as [Hl|[<-|[]]].
      * left. exists l. auto.
      * simpl in Hst. discriminate.
  - left. exists l. auto.
  - rewrite decide_links in Hl. apply in_map_iff in Hl.
    destruct Hl as (x & E & Hx).
    destruct (String.eqb (l_id x) id) eqn:Eid.
    + right. apply String.eqb_eq in Eid. subst l. simpl in *. now subst.
    + left. exists x. subst l. auto.
  - left. exists l. auto.
Qed.

Lemma exec_approved_origin fk tr : forall db l,
  In l (parent_student_links (exec fk db tr)) ->
  l_status l = Some "approved" ->
  (exists l0, In l0 (parent_student_links db)
              /\ l_id l0 = l_id l /\ l_status l0 = Some "approved")
  \/ exists e, In (e, Decide (l_id l) (Some "approved")) tr.
Proof.
  induction tr as [|[e q] tr IH]; intros db l Hl Hst; simpl in *.
  - left. exists l. auto.
  - destruct (IH _ l Hl Hst) as [(l1 & H1 & Hid & Hst1)|(e' & He')].
    + destruct (handle_approved_origin fk db e q l1 H1 Hst1)
        as [(l0 & H0 & Hid0 & Hst0)|Hq].
      * left. exists l0. repeat split; auto. congruence.
      * right. exists e. left. rewrite Hq, Hid. reflexivity.
    + right. exists e'. now right.
Qed.

Lemma map_throwing_some {A B} (f : A -> option B) (l : list A) (bs : list B) :
  map_throwing f l = Some bs ->
  (forall b, In b bs -> exists a, In a l /\ f a = Some b)
  /\ (forall a, In a l -> exists b, In b bs /\ f a = Some b).
Proof.
  revert bs. induction l as [|a l IH]; simpl; intros bs H.
  - inversion H; subst. split; [intros b []|intros a []].
  - destruct (f a) as [b|] eqn:Ea; [|discriminate].
    destruct (map_throwing f l) as [bs'|]; [|discriminate].
    inversion H; subst. destruct (IH bs' eq_refl) as [I1 I2]. split.
    + intros b0 [<-|Hb]; [exists a; auto|].
      destruct (I1 b0 Hb) as (a0 & Ha0 & E). exists a0. auto.
    + intros a0 [<-|Ha0]; [exists b; split; [now left|exact Ea]|].
      destruct (I2 a0 Ha0) as (b0 & Hb0 & E). exists b0. split; [now right|exact E].
Qed.

Lemma map_throwing_none {A B} (f : A -> option B) (l : list A) :
  map_throwing f l = None <-> exists a, In a l /\ f a = None.
Proof.
  induction l as [|a l IH]; simpl.
  - split; [discriminate|intros (a & [] & _)].
  - destruct (f a) as [b|] eqn:Ea.
    + destruct (map_throwing f l) as [bs|].
      * split; [discriminate|]. intros (a0 & [<-|Ha0] & E); [congruence|].
        assert (Some bs = None) by (apply IH; eauto). discriminate.
      * split; [|reflexivity]. intros _.
        destruct (proj1 IH eq_refl) as (a0 & Ha0 & E). eauto.
    + split; [|reflexivity]. intros _. exists a. auto.
Qed.

Lemma format_student_fields {json} (parse : string -> option json) s v :
  format_student parse s = Some v ->
  v_id v = s_id s /\ v_fullName v = s_fullName s /\ v_avatar v = s_avatar s
  /\ v_status v = s_status s.
Proof.
  unfold format_student. destruct (s_educationPath s) as [[|c t]|].
  - intros H. inversion H; subst. auto.
  - destruct (parse (String c t)); [|discriminate].
    intros H. inversion H; subst. auto.
  - intros H. inversion H; subst. auto.
Qed.

Lemma select_students_spec avatar educationPath db P row :
  In row (select_students avatar educationPath db (Some P)) <->
  exists l u,
    In l (parent_student_links db) /\ In u (users db)
    /\ l_parentId l = Some P /\ l_status l = Some "approved"
    /\ l_studentId l = Some (u_id u)
    /\ row = mkStudentRow (u_id u) (u_fullName u) (avatar u) (educationPath u)
                          (Some "approved").
Proof.
  unfold select_students. rewrite in_flat_map. split.
  - intros (l & Hl & Hrow).
    destruct (sql_eq (l_parentId l) (Some P) && sql_eq (l_status l) (Some "approved")) eqn:E;
      [|destruct Hrow].
    apply andb_true_iff in E. destruct E as [E1 E2].
    apply sql_eq_some in E1. apply sql_eq_some in E2.
    apply in_map_iff in Hrow. destruct Hrow as (u & <- & Hu).
    apply filter_In in Hu. destruct Hu as [Hu Hp]. apply sql_eq_true in Hp.
    destruct Hp as (x & Hp1 & Hp2). exists l, u. rewrite E2.
    repeat split; auto. congruence.
  - intros (l & u & Hl & Hu & Hp & Hst & Hs & ->). exists l. split; [exact Hl|].
    rewrite Hp, Hst. simpl. rewrite !String.eqb_refl. simpl.
    apply in_map_iff. exists u. split; [reflexivity|].
    apply filter_In. split; [exact Hu|]. rewrite Hs. simpl. apply String.eqb_refl.
Qed.

(** X17: when the parent's list is answered, its entries are exactly the
    formatted rows of a link of that parent with status approved joined
    with the [users] row of its student; the handler throws instead exactly
    when one of those students has a non-empty [educationPath] that
    [JSON.parse] rejects. *)
Theorem parent_list_is_approved_join {json} (JSON_parse : string -> option json)
    (avatar educationPath : user -> text) db P :
  (forall views,
      listStudents JSON_parse avatar educationPath db (Some P) = Some views ->
      forall v, In v views <->
        exists l u,
          In l (parent_student_links db) /\ In u (users db)
          /\ l_parentId l = Some P /\ l_status l = Some "approved"
          /\ l_studentId l = Some (u_id u)
          /\ format_student JSON_parse
               (mkStudentRow (u_id u) (u_fullName u) (avatar u) (educationPath u)
                             (Some "approved")) = Some v)
  /\ (listStudents JSON_parse avatar educationPath db (Some P) = None <->
      exists l u t,
        In l (parent_student_links db) /\ In u (users db)
        /\ l_parentId l = Some P /\ l_status l = Some "approved"
        /\ l_studentId l = Some (u_id u)
        /\ educationPath u = Some t /\ t <> "" /\ JSON_parse t = None).
Proof.
  unfold listStudents. split.
  - intros views Hv v. destruct (map_throwing_some _ _ _ Hv) as [I1 I2]. split.
    + intros Hin. destruct (I1 v Hin) as (row & Hrow & E).
      apply select_students_spec in Hrow.
      destruct Hrow as (l & u & Hl & Hu & Hp & Hst & Hs & ->).
      exists l, u. auto 10.
    + intros (l & u & Hl & Hu & Hp & Hst & Hs & E).
      destruct (I2 (mkStudentRow (u_id u) (u_fullName u) (avatar u) (educationPath u)
                                 (Some "approved"))) as (b & Hb & E').
      { apply select_students_spec. exists l, u. auto 10. }
      congruence.
  - rewrite map_throwing_none. split.
    + intros (row & Hrow & E). apply select_students_spec in Hrow.
      destruct Hrow as (l & u & Hl & Hu & Hp & Hst & Hs & ->).
      unfold format_student in E. simpl in E.
      destruct (educationPath u) as [[|c t]|] eqn:Ed; try discriminate.
      destruct (JSON_parse (String c t)) eqn:Ep; [discriminate|].
      exists l, u, (String c t). repeat split; auto. discriminate.
    + intros (l & u & t & Hl & Hu & Hp & Hst & Hs & Ed & Ht & Ep).
      exists (mkStudentRow (u_id u) (u_fullName u) (avatar u) (educationPath u)
                           (Some "approved")).
      split; [apply select_students_spec; exists l, u; auto 10|].
      unfold format_student. simpl. rewrite Ed.
      destruct t as [|c t]; [congruence|]. now rewrite Ep.
Qed.

(** X18: every student a parent is shown has status approved and is the
    student of a link request of that parent for which a decision with
    status approved was served: without such a decision no student is
    shown. *)
Theorem parent_access_needs_approval {json} (JSON_parse : string -> option json)
    (avatar educationPath : user -> text) fk tr P views :
  listStudents JSON_parse avatar educationPath (exec fk empty_db tr) (Some P)
  = Some views ->
  forall v, In v views ->
    v_status v = Some "approved"
    /\ exists l e,
         In l (parent_student_links (exec fk empty_db tr))
         /\ l_parentId l = Some P /\ l_studentId l = Some (v_id v)
         /\ In (e, Decide (l_id l) (Some "approved")) tr.
Proof.
  intros Hv v Hin. unfold listStudents in Hv.
  destruct (map_throwing_some _ _ _ Hv) as [I1 _].
  destruct (I1 v Hin) as (row & Hrow & E).
  apply format_student_fields in E. destruct E as (Eid & _ & _ & Est).
  apply select_students_spec in Hrow.
  destruct Hrow as (l & u & Hl & Hu & Hp & Hst & Hs & ->). simpl in *.
  split; [exact Est|].
  destruct (exec_approved_origin fk tr empty_db l Hl Hst) as [(l0 & [] & _)|(e & He)].
  exists l, e. rewrite Eid. auto.
Qed.

Lemma decide_users db id st :
  users (fst (decide db id st)) = users db.
Proof.
  unfold decide. destruct (is_approved st); [|reflexivity].
  destruct (find _ _); reflexivity.
Qed.

(** X19: once the request of parent [P] for student [S] is approved, and
    [S] is a user, the join selects [S] for [P], and every list the
    handler answers for [P] shows [S] with that user's name. *)
Theorem approved_student_is_listed {json} (JSON_parse : string -> option json)
    (avatar educationPath : user -> text) db R P S u :
  In R (parent_student_links db) ->
  l_parentId R = Some P -> l_studentId R = Some S ->
  In u (users db) -> u_id u = S ->
  let db' := fst (decide db (l_id R) (Some "approved")) in
  In (mkStudentRow S (u_fullName u) (avatar u) (educationPath u) (Some "approved"))
     (select_students avatar educationPath db' (Some P))
  /\ (forall views,
        listStudents JSON_parse avatar educationPath db' (Some P) = Some views ->
        exists v, In v views /\ v_id v = S /\ v_fullName v = u_fullName u
                  /\ v_status v = Some "approved").
Proof.
  intros HR HP HS Hu Hid db'.
  assert (Hrow : In (mkStudentRow S (u_fullName u) (avatar u) (educationPath u)
                                  (Some "approved"))
                    (select_students avatar educationPath db' (Some P))).
  { apply select_students_spec. exists (set_status (Some "approved") R), u.
    subst db'. rewrite decide_users, decide_links. repeat split; auto.
    - apply in_map_iff. exists R. split; [|exact HR]. now rewrite String.eqb_refl.
    - simpl. congruence.
    - now subst S. }
  split; [exact Hrow|].
  intros views Hv. unfold listStudents in Hv.
  destruct (map_throwing_some _ _ _ Hv) as [_ I2].
  destruct (I2 _ Hrow) as (v & Hin & E).
  apply format_student_fields in E. simpl in E.
  exists v. tauto.
Qed.

(** ** Stored codes *)

Lemma generated_code_well_formed (g : rng) :
  draws_in_range g -> well_formed_code (generateLinkingCode g) = true.
Proof.
  intros Hg.
  destruct (letter_of_draw (g 0%nat) (Hg 0%nat ltac:(lia))) as (a0 & E0 & A0).
  destruct (letter_of_draw (g 1%nat) (Hg 1%nat ltac:(lia))) as (a1 & E1 & A1).
  destruct (letter_of_draw (g 2%nat) (Hg 2%nat ltac:(lia))) as (a2 & E2 & A2).
  destruct (letter_of_draw (g 3%nat) (Hg 3%nat ltac:(lia))) as (a3 & E3 & A3).
  destruct (letter_of_draw (g 4%nat) (Hg 4%nat ltac:(lia))) as (a4 & E4 & A4).
  destruct (letter_of_draw (g 5%nat) (Hg 5%nat ltac:(lia))) as (a5 & E5 & A5).
  unfold generateLinkingCode, code_loop. rewrite E0, E1, E2, E3, E4, E5.
  unfold well_formed_code. cbn -[in_alphabet].
  now rewrite A0, A1, A2, A3, A4, A5.
Qed.

Lemma handle_codes_well_formed fk db e q :
  draws_in_range (random e) ->
  (forall r, In r (linking_codes db) -> well_formed_code (c_code r) = true) ->
  forall r, In r (linking_codes (fst (handle fk db e q))) ->
            well_formed_code (c_code r) = true.
Proof.
  intros Hg Hold. destruct q as [s|p c|s|id st|us]; simpl; auto.
  - destruct (requestCode_codes_shape fk db e s) as [->|(_ & _ & ->)]; [auto|].
    intros r Hr. apply in_app_or in Hr. destruct Hr as [Hr|[<-|[]]]; [auto|].
    simpl. now apply generated_code_well_formed.
  - now rewrite redeemCode_codes.
  - destruct (decide_codes_shape db id st) as [->|(s & ->)]; [auto|].
    intros r Hr. apply in_map_iff in Hr. destruct Hr as (r0 & <- & Hr0).
    specialize (Hold r0 Hr0). destruct (sql_eq (c_studentId r0) s); exact Hold.
Qed.

(** X3: when every call's draws are in [[0,1)], every code the server has
    stored is ["STU-"] followed by six alphabet characters. *)
Theorem stored_codes_well_formed fk tr :
  Forall (fun x => draws_in_range (random (fst x))) tr ->
  forall r, In r (linking_codes (exec fk empty_db tr)) ->
            well_formed_code (c_code r) = true
            /\ String.length (c_code r) = 10%nat.
Proof.
  intros Hall.
  assert (H : forall db,
             (forall r, In r (linking_codes db) -> well_formed_code (c_code r) = true) ->
             forall r, In r (linking_codes (exec fk db tr)) ->
                       well_formed_code (c_code r) = true).
  { induction Hall as [|[e q] tr Hg Hall IH]; intros db Hold; simpl; [exact Hold|].
    apply IH. now apply handle_codes_well_formed. }
  intros r Hr. assert (Hwf := H empty_db (fun r (F : In r []) => match F with end) r Hr).
  split; [exact Hwf|]. unfold well_formed_code in Hwf.
  apply andb_true_iff in Hwf. destruct Hwf as [Hwf _].
  apply andb_true_iff in Hwf. destruct Hwf as [_ Hlen].
  now apply Nat.eqb_eq.
Qed.

(** X10: after the approval of a request of student [S], no row of [S] is
    found as existing code at any instant, so a [requestCode(S)] that
    answers with a code answers with the newly generated one, expiring 24
    hours after the clock, and different from every code stored before. *)
Theorem approval_forces_new_code fk tr R S e :
  let db := exec fk empty_db tr in
  In R (parent_student_links db) -> l_studentId R = Some S ->
  let db' := fst (decide db (l_id R) (Some "approved")) in
  (forall t, existing_code db' (Some S) t = None)
  /\ (forall c x,
        snd (requestCode fk db' e (Some S)) = Respond 200 (CodeBody c x) ->
        c = generateLinkingCode (random e) /\ x = now2 e + 86400000
        /\ (forall r, In r (linking_codes db) -> c_code r <> c)).
Proof.
  intros db HR HS db'.
  destruct (reachable_schema_ok fk tr) as [Hids _]. fold db in Hids.
  assert (Edb : db' = invalidate_codes (update_status db (l_id R) (Some "approved"))
                                       (Some S)).
  { subst db'. now rewrite (decide_approved db R Hids HR), HS. }
  assert (Hnone : forall t, existing_code db' (Some S) t = None).
  { intros t. apply find_none_iff. intros r Hr. rewrite Edb in Hr. simpl in Hr.
    apply in_map_iff in Hr. destruct Hr as (r0 & <- & Hr0).
    destruct (sql_eq (c_studentId r0) (Some S)) eqn:E.
    - simpl. apply andb_false_iff. now right.
    - rewrite E. reflexivity. }
  split; [exact Hnone|].
  intros c x Hres. unfold requestCode in Hres. rewrite Hnone in Hres. cbv zeta in Hres.
  destruct (code_insertable fk db' _) eqn:Eins; simpl in Hres; [|discriminate].
  inversion Hres; subst c x. split; [reflexivity|]. split; [reflexivity|].
  apply code_insertable_fresh in Eins. destruct Eins as [_ Efresh]. simpl in Efresh.
  intros r Hr Hc. apply Efresh. rewrite Edb, invalidate_codes_codes. simpl.
  rewrite <- Hc. now apply in_map.
Qed.

(** X9: a call without [studentId] never finds an existing code (its
    comparison is with NULL): whatever is stored, if the generated code and
    row id are not, it appends a row with a NULL student and answers with
    the new code; foreign keys do not stand in the way. *)
Theorem requestCode_without_student fk db e :
  let newCode := generateLinkingCode (random e) in
  let row := mkCode (rowid e) None newCode (now2 e + 86400000) 0 in
  ((forall r, In r (linking_codes db) -> c_code r <> newCode) ->
   (forall r, In r (linking_codes db) -> c_id r <> rowid e) ->
   requestCode fk db e None
   = (mkDB (users db) (linking_codes db ++ [row]) (parent_student_links db),
      Respond 200 (CodeBody newCode (now2 e + 86400000))))
  /\ (forall c x, snd (requestCode fk db e None) = Respond 200 (CodeBody c x) ->
        linking_codes (fst (requestCode fk db e None)) = linking_codes db ++ [row]).
Proof.
  intros newCode row.
  assert (Hnone : existing_code db None (now e) = None).
  { apply find_none_iff. intros r _. destruct (c_studentId r); reflexivity. }
  unfold requestCode. rewrite Hnone. cbv zeta. fold newCode.
  change (now2 e + day_ms) with (now2 e + 86400000). fold row. split.
  - intros H1 H2. replace (code_insertable fk db row) with true; [reflexivity|].
    symmetry. unfold code_insertable. simpl.
    rewrite (proj2 (existsb_eqb_false c_id (linking_codes db) (rowid e)) H2).
    rewrite (proj2 (existsb_eqb_false c_code (linking_codes db) newCode) H1).
    simpl. apply orb_true_r.
  - intros c x. destruct (code_insertable fk db row); simpl; [reflexivity|discriminate].
Qed.

(** ** Redemption *)

Lemma same_pair_spec a b :
  same_pair a b = true <->
  exists P S, l_parentId a = Some P /\ l_parentId b = Some P
              /\ l_studentId a = Some S /\ l_studentId b = Some S.
Proof.
  unfold same_pair. rewrite andb_true_iff, !sql_eq_true. split.
  - intros [(P & A1 & A2) (S & B1 & B2)]. exists P, S. auto.
  - intros (P & S & A1 & A2 & B1 & B2). split; [exists P|exists S]; auto.
Qed.

Lemma link_insertable_spec fk db row :
  link_insertable fk db row = true <->
  (forall l, In l (parent_student_links db) -> l_id l <> l_id row)
  /\ (forall l, In l (parent_student_links db) -> same_pair l row = false)
  /\ (fk = true -> references_user (users db) (l_parentId row) = true
                   /\ references_user (users db) (l_studentId row) = true).
Proof.
  unfold link_insertable.
  rewrite !andb_true_iff, !negb_true_iff, existsb_eqb_false, existsb_false,
    orb_true_iff, negb_true_iff, andb_true_iff.
  split.
  - intros [[H1 H2] H3]. split; [exact H1|]. split; [exact H2|].
    intros ->. destruct H3 as [H3|H3]; [discriminate|exact H3].
  - intros (H1 & H2 & H3). split; [split; assumption|].
    destruct fk; [right; now apply H3|now left].
Qed.

(** X11: for a valid code, the redemption is answered 400 with the
    already-exists message when the row id is taken, when the pair has a
    row, or when foreign keys are enforced and the parent or the student is
    no user (although no request of the pair exists then); otherwise the
    pending row is appended and the answer is the success message. *)
Theorem redeemCode_answers fk db e p c codeData :
  valid_code db c (now e) = Some codeData ->
  let s := c_studentId codeData in
  let row := mkLink (rowid e) p s (Some "pending") (now2 e) in
  ((exists l, In l (parent_student_links db) /\ l_id l = rowid e)
   \/ (exists l P S, In l (parent_student_links db)
                     /\ l_parentId l = Some P /\ p = Some P
                     /\ l_studentId l = Some S /\ s = Some S)
   \/ (fk = true /\ (references_user (users db) p = false
                     \/ references_user (users db) s = false)) ->
   redeemCode fk db e p c = (db, Respond 400 (MessageBody false msg_link_exists)))
  /\ ((forall l, In l (parent_student_links db) -> l_id l <> rowid e) ->
      (forall l P S, In l (parent_student_links db) ->
                     l_parentId l = Some P -> l_studentId l = Some S ->
                     ~ (p = Some P /\ s = Some S)) ->
      (fk = true -> references_user (users db) p = true
                    /\ references_user (users db) s = true) ->
      redeemCode fk db e p c
      = (mkDB (users db) (linking_codes db) (parent_student_links db ++ [row]),
         Respond 200 (MessageBody true msg_link_sent))).
Proof.
  intros Hv s row. unfold redeemCode. rewrite Hv. cbv zeta. fold s. fold row.
  pose proof (link_insertable_spec fk db row) as Hspec. simpl in Hspec.
  split.
  - intros Hbad. replace (link_insertable fk db row) with false; [reflexivity|].
    symmetry. apply not_true_is_false. intros Hins.
    apply Hspec in Hins. destruct Hins as (H1 & H2 & H3).
    destruct Hbad as [(l & Hl & E)|[(l & P & S & Hl & A & B & C & D)|(Hfk & Hd)]].
    + exact (H1 l Hl E).
    + specialize (H2 l Hl).
      assert (same_pair l row = true); [|congruence].
      apply same_pair_spec. exists P, S. simpl. auto.
    + destruct (H3 Hfk) as [R1 R2]. destruct Hd; congruence.
  - intros H1 H2 H3. replace (link_insertable fk db row) with true; [reflexivity|].
    symmetry. apply Hspec. repeat split; try tauto.
    intros l Hl. apply not_true_is_false. intros Hp.
    apply same_pair_spec in Hp. simpl in Hp.
    destruct Hp as (P & S & A & B & C & D). exact (H2 l P S Hl A C (conj B D)).
Qed.

Lemma is_pair_false_pair_count db P S :
  pair_count db P S = 0%nat ->
  forall l, In l (parent_student_links db) -> is_pair P S l = false.
Proof.
  unfold pair_count. intros H l Hl.
  destruct (is_pair P S l) eqn:E; [|reflexivity].
  assert (Hin : In l (filter (is_pair P S) (parent_student_links db)))
    by (apply filter_In; auto).
  destruct (filter (is_pair P S) (parent_student_links db)); [destruct Hin|discriminate].
Qed.

(** X12: a redemption does not use the code up: after the successful
    redemption by [P1] the [linking_codes] table is as before, and another
    parent [P2] redeeming the same code while it is valid gets a second
    pending request for the same student. *)
Theorem code_serves_several_parents fk db e1 e2 P1 P2 c codeData S :
  valid_code db c (now e1) = Some codeData ->
  valid_code db c (now e2) = Some codeData ->
  c_studentId codeData = Some S ->
  snd (redeemCode fk db e1 (Some P1) c) = Respond 200 (MessageBody true msg_link_sent) ->
  P2 <> P1 -> pair_count db P2 S = 0%nat ->
  rowid e2 <> rowid e1 ->
  (forall l, In l (parent_student_links db) -> l_id l <> rowid e2) ->
  (fk = true -> exists u, In u (users db) /\ u_id u = P2) ->
  let db1 := fst (redeemCode fk db e1 (Some P1) c) in
  let row1 := mkLink (rowid e1) (Some P1) (Some S) (Some "pending") (now2 e1) in
  let row2 := mkLink (rowid e2) (Some P2) (Some S) (Some "pending") (now2 e2) in
  linking_codes db1 = linking_codes db
  /\ redeemCode fk db1 e2 (Some P2) c
     = (mkDB (users db) (linking_codes db) (parent_student_links db ++ [row1; row2]),
        Respond 200 (MessageBody true msg_link_sent)).
Proof.
  intros V1 V2 HS Hok Hne Hcount Hid Hfresh Hfk db1 row1 row2.
  assert (E1 : redeemCode fk db e1 (Some P1) c
               = (insert_link db row1, Respond 200 (MessageBody true msg_link_sent))
               /\ link_insertable fk db row1 = true).
  { unfold redeemCode in *. rewrite V1 in *. cbv zeta in *. rewrite HS in *.
    fold row1 in Hok |- *. destruct (link_insertable fk db row1); [auto|discriminate]. }
  destruct E1 as [E1 Hins1]. subst db1. rewrite E1. simpl fst.
  split; [reflexivity|].
  unfold redeemCode.
  change (valid_code (insert_link db row1) c (now e2)) with (valid_code db c (now e2)).
  rewrite V2. cbv zeta. rewrite HS. fold row2.
  replace (link_insertable fk (insert_link db row1) row2) with true.
  { unfold insert_link. simpl. rewrite <- app_assoc. reflexivity. }
  symmetry. apply link_insertable_spec. simpl.
  apply link_insertable_spec in Hins1. simpl in Hins1.
  destruct Hins1 as (_ & _ & Hfk1). split; [|split; [|intros Efk; split]].
  - intros l Hl. apply in_app_or in Hl. destruct Hl as [Hl|[<-|[]]]; [auto|].
    simpl. congruence.
  - intros l Hl. apply in_app_or in Hl. destruct Hl as [Hl|[<-|[]]].
    + pose proof (is_pair_false_pair_count db P2 S Hcount l Hl) as Hp.
      unfold is_pair in Hp. unfold same_pair. simpl.
      exact Hp.
    + unfold same_pair. simpl. apply andb_false_iff. left.
      apply String.eqb_neq. congruence.
  - apply references_user_spec. auto.
  - now apply Hfk1.
Qed.

(** ** Decisions *)

Lemma update_status_unknown db id st :
  id_unknown db id -> update_status db id st = db.
Proof.
  intros H. destruct db as [us cs ls]. unfold update_status. simpl. f_equal.
  apply map_id_on. intros l Hl. specialize (H l Hl). simpl in H.
  apply String.eqb_neq in H. now rewrite H.
Qed.

(** X15: a decision on an id that no row carries leaves the database as it
    was; with status approved it throws the TypeError, with any other
    status it answers success. *)
Theorem decide_unknown_id db id st :
  id_unknown db id ->
  decide db id st
  = (db, if is_approved st then Throw TypeError else Respond 200 SuccessBody).
Proof.
  intros H. unfold decide. rewrite (update_status_unknown db id st H).
  destruct (is_approved st); [|reflexivity].
  replace (find (fun l => String.eqb (l_id l) id) (parent_student_links db))
    with (@None link); [reflexivity|].
  symmetry. apply find_none_iff. intros l Hl. apply String.eqb_neq. now apply H.
Qed.

Lemma status_rewrite_twice id s1 s2 (ls : list link) :
  map (fun l => if String.eqb (l_id l) id then set_status s2 l else l)
      (map (fun l => if String.eqb (l_id l) id then set_status s1 l else l) ls)
  = map (fun l => if String.eqb (l_id l) id then set_status s2 l else l) ls.
Proof.
  rewrite map_map. apply map_ext. intros l.
  destruct (String.eqb (l_id l) id) eqn:E; simpl; rewrite E; reflexivity.
Qed.

(** X16: of two decisions on the same id the later one determines the link
    table, and repeating a decision changes nothing more and gets the same
    answer. *)
Theorem decide_twice db id s1 s2 :
  parent_student_links (fst (decide (fst (decide db id s1)) id s2))
  = parent_student_links (fst (decide db id s2))
  /\ decide (fst (decide db id s1)) id s1 = decide db id s1.
Proof.
  split.
  - rewrite !decide_links. apply status_rewrite_twice.
  - unfold decide. destruct (is_approved s1) eqn:Ea.
    + change (parent_student_links (update_status db id s1))
        with (map (fun l => if String.eqb (l_id l) id then set_status s1 l else l)
                  (parent_student_links db)).
      destruct (find (fun l => String.eqb (l_id l) id)
                     (map (fun l => if String.eqb (l_id l) id then set_status s1 l else l)
                          (parent_student_links db))) as [l1|] eqn:E1.
      * simpl fst. unfold update_status at 1 2. simpl.
        rewrite status_rewrite_twice, E1. unfold invalidate_codes, update_status. simpl.
        rewrite status_rewrite_twice. f_equal. f_equal.
        rewrite map_map. apply map_ext. intros r.
        destruct (sql_eq (c_studentId r) (l_studentId l1)) eqn:E; simpl; rewrite E;
          reflexivity.
      * simpl fst. unfold update_status at 1 2. simpl.
        rewrite status_rewrite_twice, E1. unfold update_status. simpl.
        now rewrite status_rewrite_twice.
    + simpl fst. unfold update_status. simpl. now rewrite status_rewrite_twice.
Qed.

(** ** The pending list after a redemption and after a decision *)

Lemma pending_rows_intro db S l u :
  In l (parent_student_links db) -> In u (users db) ->
  l_studentId l = Some S -> l_status l = Some "pending" ->
  l_parentId l = Some (u_id u) ->
  In (l, u_fullName u, u_email u) (pending_rows db (Some S)).
Proof.
  intros Hl Hu Hs Hst Hp. unfold pending_rows. apply in_flat_map.
  exists l. split; [exact Hl|]. rewrite Hs, Hst. simpl. rewrite !String.eqb_refl. simpl.
  apply in_map_iff. exists u. split; [reflexivity|].
  apply filter_In. split; [exact Hu|]. rewrite Hp. simpl. apply String.eqb_refl.
Qed.

Lemma pending_rows_elim db s row :
  In row (pending_rows db s) ->
  In (fst (fst row)) (parent_student_links db)
  /\ sql_eq (l_status (fst (fst row))) (Some "pending") = true.
Proof.
  unfold pending_rows. intros H. apply in_flat_map in H. destruct H as (l & Hl & Hrow).
  destruct (sql_eq (l_studentId l) s) eqn:E1; [|destruct Hrow].
  destruct (sql_eq (l_status l) (Some "pending")) eqn:E2; [|destruct Hrow].
  simpl in Hrow. apply in_map_iff in Hrow. destruct Hrow as (u & <- & _). auto.
Qed.

(** X13: after a successful redemption by a parent who is a user, the
    student's pending list holds the new request with that parent's name
    and email. *)
Theorem redeemed_request_is_listed fk db e P c codeData S u :
  valid_code db c (now e) = Some codeData -> c_studentId codeData = Some S ->
  snd (redeemCode fk db e (Some P) c) = Respond 200 (MessageBody true msg_link_sent) ->
  In u (users db) -> u_id u = P ->
  In (mkLink (rowid e) (Some P) (Some S) (Some "pending") (now2 e),
      u_fullName u, u_email u)
     (pending_rows (fst (redeemCode fk db e (Some P) c)) (Some S)).
Proof.
  intros Hv Hs Hok Hu Hid. unfold redeemCode in *. rewrite Hv in *. cbv zeta in *.
  rewrite Hs in *. destruct (link_insertable fk db _); simpl in *; [|discriminate].
  apply pending_rows_intro; simpl; auto.
  - apply in_or_app. right. now left.
  - now subst P.
Qed.

(** X14: after a decision with any status other than pending, no pending
    list shows a request with the decided id. *)
Theorem decided_request_not_pending db id st s row :
  sql_eq st (Some "pending") = false ->
  In row (pending_rows (fst (decide db id st)) s) ->
  l_id (fst (fst row)) <> id.
Proof.
  intros Hst Hrow. apply pending_rows_elim in Hrow. destruct Hrow as [Hl Hp].
  rewrite decide_links in Hl. apply in_map_iff in Hl. destruct Hl as (x & E & Hx).
  destruct (String.eqb (l_id x) id) eqn:Eid.
  - rewrite <- E in Hp. simpl in Hp. congruence.
  - rewrite <- E. now apply String.eqb_neq.
Qed.

(** ** Instances *)

Lemma generated_code_shape_witness :
  well_formed_code (generateLinkingCode retry_rng) = true
  /\ String.length (generateLinkingCode retry_rng) = 10%nat.
Proof.
  destruct (generated_code_shape retry_rng) as (H1 & H2 & _).
  - intros i Hi. unfold retry_rng. destruct (i <? 6)%nat; split; vm_compute; congruence.
  - auto.
Defined.

Lemma generated_code_round_trip_witness :
  generateLinkingCode (draws_for [0; 7; 8; 23; 24; 31]) = "STU-AHJZ29"
  /\ (generateLinkingCode (draws_for [0; 7; 8; 23; 24; 31])
      = generateLinkingCode (draws_for [0; 7; 8; 23; 24; 30]) ->
      [0; 7; 8; 23; 24; 31] = [0; 7; 8; 23; 24; 30]).
Proof.
  destruct (generated_code_round_trip [0; 7; 8; 23; 24; 31] [0; 7; 8; 23; 24; 30])
    as (_ & H & Hinj).
  - reflexivity.
  - repeat constructor; unfold index_in_range; lia.
  - reflexivity.
  - repeat constructor; unfold index_in_range; lia.
  - split; [rewrite H; reflexivity|exact Hinj].
Defined.

Lemma code_rows_are_kept_witness :
  exists r', In r' (linking_codes (exec true empty_db demo_approve))
             /\ c_code r' = "STU-AAAAAA" /\ c_expiresAt r' = demo_expiry
             /\ c_used r' = 1.
Proof.
  destruct (code_rows_are_kept true
              [ (demo_env 200 "r1", RedeemCode (Some "p1") (Some "STU-AAAAAA"));
                (demo_env 300 "", Decide "r1" (Some "approved")) ]
              (exec true empty_db demo_issue)
              (mkCode "c1" (Some "s1") "STU-AAAAAA" demo_expiry 0))
    as (_ & r' & Hin & _ & _ & Hc & He & _).
  - vm_compute. now left.
  - exists r'. assert (Hin' := Hin). vm_compute in Hin'.
    destruct Hin' as [E|[]]. subst r'. repeat split. exact Hin.
Defined.

Lemma link_rows_are_kept_witness :
  exists l', In l' (parent_student_links (exec true empty_db demo_reject))
             /\ l_id l' = "r1" /\ l_parentId l' = Some "p1"
             /\ l_studentId l' = Some "s1" /\ l_createdAt l' = 200.
Proof.
  apply (link_rows_are_kept true
           [ (demo_env 300 "", Decide "r1" (Some "rejected")) ]
           (exec true empty_db demo_redeem)
           (mkLink "r1" (Some "p1") (Some "s1") (Some "pending") 200)).
  vm_compute. now left.
Defined.

Lemma codes_expire_within_a_day_witness :
  let db := exec true empty_db demo_redeem in
  redeemCode true db (demo_env (200 + 86400000) "r2") (Some "p2") (Some "STU-AAAAAA")
  = (db, Respond 400 (MessageBody false msg_invalid_code)).
Proof.
  intros db.
  destruct (codes_expire_within_a_day true 0 demo_redeem) as (_ & H).
  - simpl. lia.
  - apply H. vm_compute. discriminate.
Defined.

Lemma one_active_code_per_student_witness :
  exists r, In r (linking_codes (exec true empty_db demo_reject))
            /\ forall r', In r' (linking_codes (exec true empty_db demo_reject)) ->
                          c_studentId r' = Some "s1" -> c_used r' = 0 ->
                          300 < c_expiresAt r' -> r' = r.
Proof.
  exists (mkCode "c1" (Some "s1") "STU-AAAAAA" demo_expiry 0).
  split; [vm_compute; now left|].
  intros r' Hr Hs Hu He.
  apply (one_active_code_per_student true 0 demo_reject 300
           ltac:(simpl; lia) ltac:(vm_compute; discriminate) "s1"); auto.
  - vm_compute. now left.
  - vm_compute. reflexivity.
Defined.

Lemma parent_access_needs_approval_witness :
  listStudents demo_parse demo_avatar demo_path (exec true empty_db demo_redeem)
               (Some "p1") = Some []
  /\ exists l e,
       In l (parent_student_links (exec true empty_db demo_approve))
       /\ l_parentId l = Some "p1" /\ l_studentId l = Some "s1"
       /\ In (e, Decide (l_id l) (Some "approved")) demo_approve.
Proof.
  split; [reflexivity|].
  apply (parent_access_needs_approval demo_parse demo_avatar demo_path
           true demo_approve "p1" _ eq_refl
           (mkStudentView "s1" (Some "Sara") (Some "/avatars/s1") (Some "{}")
                          (Some "approved"))).
  now left.
Defined.

Lemma approved_student_is_listed_witness :
  listStudents demo_parse demo_avatar demo_path (exec true empty_db demo_approve)
               (Some "p1")
  = Some [ mkStudentView "s1" (Some "Sara") (Some "/avatars/s1") (Some "{}")
                         (Some "approved") ]
  /\ In (mkStudentRow "s1" (Some "Sara") (Some "/avatars/s1") (Some "{}")
                      (Some "approved"))
        (select_students demo_avatar demo_path
           (fst (decide (exec true empty_db demo_redeem) "r1" (Some "approved")))
           (Some "p1")).
Proof.
  split; [reflexivity|].
  apply (approved_student_is_listed demo_parse demo_avatar demo_path
           (exec true empty_db demo_redeem)
           (mkLink "r1" (Some "p1") (Some "s1") (Some "pending") 200) "p1" "s1"
           (mkUser "s1" (Some "Sara") (Some "sara@example.org"))).
  - vm_compute. now left.
  - reflexivity.
  - reflexivity.
  - vm_compute. now left.
  - reflexivity.
Defined.

Lemma stored_codes_well_formed_witness :
  Forall (fun r => well_formed_code (c_code r) = true)
         (linking_codes (exec true empty_db demo_approve)).
Proof.
  apply Forall_forall. intros r Hr.
  apply (stored_codes_well_formed true demo_approve); [|exact Hr].
  cbv [demo_approve demo_issue app].
  repeat (apply Forall_cons; [intros i Hi; vm_compute; split; congruence|]).
  apply Forall_nil.
Defined.

Lemma approval_forces_new_code_witness :
  existing_code (exec true empty_db demo_approve) (Some "s1") 400 = None.
Proof.
  destruct (approval_forces_new_code true demo_redeem
              (mkLink "r1" (Some "p1") (Some "s1") (Some "pending") 200) "s1"
              (demo_env 400 "c2")) as [H _].
  - vm_compute. now left.
  - reflexivity.
  - apply H.
Defined.

Lemma redeemCode_answers_witness :
  let db := exec true empty_db demo_issue in
  parent_student_links db = []
  /\ redeemCode true db (demo_env 200 "r1") (Some "stranger") (Some "STU-AAAAAA")
     = (db, Respond 400 (MessageBody false msg_link_exists)).
Proof.
  intros db. split; [reflexivity|].
  destruct (redeemCode_answers true db (demo_env 200 "r1") (Some "stranger")
              (Some "STU-AAAAAA")
              (mkCode "c1" (Some "s1") "STU-AAAAAA" demo_expiry 0) eq_refl)
    as [H _].
  apply H. right. right. split; [reflexivity|]. left. reflexivity.
Defined.

Lemma code_serves_several_parents_witness :
  let db := exec true empty_db demo_redeem in
  redeemCode true db (demo_env 250 "r2") (Some "p2") (Some "STU-AAAAAA")
  = (mkDB demo_users
          [ mkCode "c1" (Some "s1") "STU-AAAAAA" demo_expiry 0 ]
          [ mkLink "r1" (Some "p1") (Some "s1") (Some "pending") 200;
            mkLink "r2" (Some "p2") (Some "s1") (Some "pending") 250 ],
     Respond 200 (MessageBody true msg_link_sent)).
Proof.
  intros db.
  apply (code_serves_several_parents true (exec true empty_db demo_issue)
           (demo_env 200 "r1") (demo_env 250 "r2") "p1" "p2"
           (Some "STU-AAAAAA")
           (mkCode "c1" (Some "s1") "STU-AAAAAA" demo_expiry 0) "s1").
  - reflexivity.
  - reflexivity.
  - reflexivity.
  - reflexivity.
  - discriminate.
  - reflexivity.
  - discriminate.
  - intros l [].
  - intros _. exists (mkUser "p2" (Some "Mona") (Some "mona@example.org")).
    split; [vm_compute; auto|reflexivity].
Defined.

Lemma decide_unknown_id_witness :
  let db := exec true empty_db demo_redeem in
  decide db "r7" (Some "approved") = (db, Throw TypeError)
  /\ decide db "r7" (Some "rejected") = (db, Respond 200 SuccessBody).
Proof.
  intros db.
  assert (H : id_unknown db "r7") by (intros l [<-|[]]; discriminate).
  split.
  - apply (decide_unknown_id db "r7" (Some "approved") H).
  - apply (decide_unknown_id db "r7" (Some "rejected") H).
Defined.

Lemma redeemed_request_is_listed_witness :
  In (mkLink "r1" (Some "p1") (Some "s1") (Some "pending") 200,
      Some "Omar", Some "omar@example.org")
     (pending_rows (exec true empty_db demo_redeem) (Some "s1")).
Proof.
  apply (redeemed_request_is_listed true (exec true empty_db demo_issue)
           (demo_env 200 "r1") "p1" (Some "STU-AAAAAA")
           (mkCode "c1" (Some "s1") "STU-AAAAAA" demo_expiry 0) "s1"
           (mkUser "p1" (Some "Omar") (Some "omar@example.org")));
    try reflexivity.
  vm_compute. auto.
Defined.

Lemma decided_request_not_pending_witness :
  Forall (fun row => l_id (fst (fst row)) <> "r1")
         (pending_rows (exec true empty_db demo_reject) (Some "s1")).
Proof.
  apply Forall_forall. intros row Hrow.
  apply (decided_request_not_pending (exec true empty_db demo_redeem) "r1"
           (Some "rejected") (Some "s1") row); [reflexivity|exact Hrow].
Defined.
